(** * The chart-builder facade of [plot.py], embedded in Rocq

    [plot.py] is a thin object-oriented layer over two collaborators: a
    tabular-data library (pandas) and a rendering library (matplotlib).
    The embedding follows the source method by method.

    - A builder object ([self]) is the record [Plot]; methods are
      computations in a small state-and-exception monad [Py] over it, so
      that an exception raised in the middle of a method leaves the
      mutations made so far in place, as in Python.
    - The rendering surface is the record [Axes]: the title and axis
      labels, the artists drawn so far, the ticks and the legend.
    - What the collaborators decide on their own (whether the renderer
      accepts a style, the value of a correlation coefficient) is a
      parameter, the record [Backend]; what Python itself decides
      (argument binding, truthiness, evaluation order) is written out.
    - Python floats are modelled by exact rationals ([Q]) and [nan]: the
      rounding of binary floating-point arithmetic is not part of the
      model. The one rounding written out is that of an integer cell
      that the table stores in a float column.
    - [show] and [save] touch the display and the file system only and
      are left out. *)

From Stdlib Require Import Ascii String List Bool Arith ZArith QArith Qminmax Lia.
Import ListNotations.

Local Open Scope string_scope.
Local Open Scope list_scope.

(** ** Python values *)

(** The values that occur as table cells, tick labels and keyword
    arguments. A float is a rational or [nan]. Dictionaries and tables
    are kept apart (see [PyData]). *)
#[warnings="-register-all"]
Inductive PyVal : Type :=
| PNone
| PBool (b : bool)
| PInt (z : Z)
| PFloat (q : Q)
| PNaN
| PStr (s : string)
| PList (items : list PyVal).

(** A [dict] with string keys, in insertion order. A Python dict has no
    repeated key; lookups take the first binding. *)
Definition Dict (A : Type) : Type := list (string * A).

(** [**kwargs]: the keyword arguments a caller passes through. *)
Definition Kwargs : Type := Dict PyVal.

Fixpoint dict_get {A : Type} (d : Dict A) (k : string) : option A :=
  match d with
  | [] => None
  | (k', v) :: d' => if String.eqb k k' then Some v else dict_get d' k
  end.

(** [k in d]. *)
Definition dict_has {A : Type} (d : Dict A) (k : string) : bool :=
  match dict_get d k with Some _ => true | None => false end.

(** [d.get(k, default)]. *)
Definition kwargs_get (d : Kwargs) (k : string) (default : PyVal) : PyVal :=
  match dict_get d k with Some v => v | None => default end.

(** The number a value stands for in arithmetic, if it is one ([bool] is a
    subclass of [int]). [nan] is a float, so arithmetic takes it; it has
    no rational, and none is read off: the only operand looked at this
    way is a [width] taken from the keywords, and the renderer call that
    would use it then raises on the repeated argument. *)
Definition as_number (v : PyVal) : option Q :=
  match v with
  | PBool b => Some (if b then 1 else 0)%Q
  | PInt z => Some (inject_Z z)
  | PFloat q => Some q
  | PNaN => Some 0%Q
  | _ => None
  end.

(** Truthiness of an optional string: [None] and [""] are falsy. *)
Definition truthy (v : option string) : bool :=
  match v with
  | Some s => negb (String.eqb s "")
  | None => false
  end.

(** [v or default], where [default] is a string. *)
Definition py_or (v : option string) (default : string) : string :=
  match v with
  | Some s => if String.eqb s "" then default else s
  | None => default
  end.

(** ** Exceptions *)

Inductive TypeErrorReason : Type :=
| RepeatedKeyword (func arg : string)  (* a keyword given twice at the call *)
| MultipleValues (func arg : string)   (* a parameter bound twice in the callee *)
| UnsupportedOperand (op : string).    (* an operand that is not a number *)

(** The exceptions of the specification's taxonomy are the ones the code
    raises: [InvalidDataError] and [NoNumericDataError] are the two
    [ValueError]s of [plot.py], told apart by their messages, and
    [ColumnNotFoundError] is the [KeyError] of a column access.
    [BackendError] stands for whatever the renderer raises on its own. *)
Inductive Exn : Type :=
| ValueError (msg : string)
| KeyError (key : string)
| TypeError (why : TypeErrorReason)
| ZeroDivisionError
| BackendError.

Definition InvalidDataError : Exn :=
  ValueError "Data must be a pandas DataFrame or dictionary.".
Definition NoNumericDataError : Exn :=
  ValueError "No numeric data available to plot a heatmap.".
Definition ColumnNotFoundError (col : string) : Exn := KeyError col.

Inductive Res (A : Type) : Type :=
| Val (a : A)
| Exc (e : Exn).
Arguments Val {A} a.
Arguments Exc {A} e.

(** ** The tabular collaborator *)

Inductive DType : Type := int64 | uint64 | float64 | bool_ | object_.

(** [np.number] covers the integer and floating dtypes, not [bool]. *)
Definition is_number (d : DType) : bool :=
  match d with
  | int64 | uint64 | float64 => true
  | bool_ | object_ => false
  end.

Record Series : Type := { dtype : DType; values : list PyVal }.

(** A table: named columns in order, and the length of its index. In a
    table built by the library every column has [nrows] values. *)
Record DataFrame : Type := { df_cols : Dict Series; nrows : nat }.

(** [df.columns]. *)
Definition columns (df : DataFrame) : list string := map fst (df_cols df).

(** [df[col]]: a missing column raises [KeyError]. *)
Definition getitem (df : DataFrame) (col : string) : Res Series :=
  match dict_get (df_cols df) col with
  | Some s => Val s
  | None => Exc (KeyError col)
  end.

Definition is_pybool (v : PyVal) : bool :=
  match v with PBool _ => true | _ => false end.
Definition is_pyint (v : PyVal) : bool :=
  match v with PInt _ => true | _ => false end.
Definition is_pynone (v : PyVal) : bool :=
  match v with PNone => true | _ => false end.
Definition is_pystr (v : PyVal) : bool :=
  match v with PStr _ => true | _ => false end.
Definition is_pylist (v : PyVal) : bool :=
  match v with PList _ => true | _ => false end.
Definition is_finite_float (v : PyVal) : bool :=
  match v with PFloat _ => true | _ => false end.

(** An integer cell within the signed, or the unsigned, 64 bits; other
    cells pass. *)
Definition fits_int64 (v : PyVal) : bool :=
  match v with
  | PInt z => Z.leb (- 2 ^ 63) z && Z.ltb z (2 ^ 63)
  | _ => true
  end.
Definition fits_uint64 (v : PyVal) : bool :=
  match v with
  | PInt z => Z.leb 0 z && Z.ltb z (2 ^ 64)
  | _ => true
  end.

(** The dtype the library infers for a column given as a sequence. An
    empty sequence is a float column. A string or a nested list among
    the cells, booleans beside anything else, nothing but [None], or an
    integer that fits neither 64-bit range make an object column. What
    is left are integers, floats and [None]: integers alone are an
    integer column, anything else a float column. *)
Definition infer_dtype (vs : list PyVal) : DType :=
  match vs with
  | [] => float64
  | _ :: _ =>
      if existsb is_pystr vs || existsb is_pylist vs then object_
      else if existsb is_pybool vs then
        if forallb is_pybool vs then bool_ else object_
      else if forallb is_pynone vs then object_
      else if forallb fits_int64 vs then
        if forallb is_pyint vs then int64 else float64
      else if forallb fits_uint64 vs then
        if forallb is_pyint vs then uint64 else float64
      else object_
  end.

(** The nearest binary64 value of an integer, ties to the even
    significand (exact below 2^53). *)
Definition round_binary64 (z : Z) : Z :=
  let a := Z.abs z in
  if Z.ltb a (2 ^ 53) then z
  else
    let e := (Z.log2 a - 52)%Z in
    let q := (a / 2 ^ e)%Z in
    let r := (a mod 2 ^ e)%Z in
    let half := (2 ^ (e - 1))%Z in
    let q' :=
      if Z.ltb r half then q
      else if Z.ltb half r then (q + 1)%Z
      else if Z.even q then q else (q + 1)%Z in
    (Z.sgn z * q' * 2 ^ e)%Z.

(** A cell of a float column: an integer becomes a float, [None]
    becomes [nan]. *)
Definition to_float64 (v : PyVal) : PyVal :=
  match v with
  | PInt z => PFloat (inject_Z (round_binary64 z))
  | PNone => PNaN
  | _ => v
  end.

(** The cells as the column stores them: coerced in a float column, as
    given otherwise. *)
Definition stored (vs : list PyVal) : list PyVal :=
  match infer_dtype vs with
  | float64 => map to_float64 vs
  | _ => vs
  end.

Definition Series_of (vs : list PyVal) : Series :=
  {| dtype := infer_dtype vs; values := stored vs |}.

(** [pd.DataFrame(d)] for a mapping from column names to sequences: the
    columns keep their order, each stored under the dtype inferred for
    it; sequences of different lengths are refused. *)
Definition pd_DataFrame (d : Dict (list PyVal)) : Res DataFrame :=
  match d with
  | [] => Val {| df_cols := []; nrows := 0 |}
  | (_, vs) :: _ =>
      let n := length vs in
      if forallb (fun kv => Nat.eqb (length (snd kv)) n) d
      then Val {| df_cols := map (fun kv => (fst kv, Series_of (snd kv))) d;
                  nrows := n |}
      else Exc (ValueError "All arrays must be of the same length")
  end.

(** [df.select_dtypes(include=[np.number])]. *)
Definition select_dtypes_number (df : DataFrame) : DataFrame :=
  {| df_cols := filter (fun kv => is_number (dtype (snd kv))) (df_cols df);
     nrows := nrows df |}.

(** [df.empty]: some axis of the table has length 0. *)
Definition empty (df : DataFrame) : bool :=
  Nat.eqb (length (df_cols df)) 0 || Nat.eqb (nrows df) 0.

(** What a caller may hand to the constructor as [data]. *)
Inductive PyData : Type :=
| DataFrameObj (df : DataFrame)
| DictObj (d : Dict (list PyVal))
| OtherObj (v : PyVal).

(** ** The rendering surface *)

(** One bar of a bar chart, as the renderer lays it out. *)
Record Rectangle : Type :=
  { rect_left : Q; rect_width : Q; rect_height : PyVal }.

Definition rect_right (r : Rectangle) : Q := (rect_left r + rect_width r)%Q.

(** What the drawing primitives leave on an axis. One [bar] call leaves
    one container holding a rectangle per category. *)
Inductive Artist : Type :=
| Line2D (xdata ydata : list PyVal) (label : string) (style : Kwargs)
| BarContainer (patches : list Rectangle) (label : string) (style : Kwargs)
| PathCollection (xdata ydata : list PyVal) (style : Kwargs)
| HistPatches (xdata : list PyVal) (bins : PyVal) (style : Kwargs)
| AxesImage (grid : list (list PyVal)) (cmap : PyVal).

Record Axes : Type := {
  ax_title : string;
  ax_xlabel : string;
  ax_ylabel : string;
  ax_artists : list Artist;
  ax_xticks : option (list Q);
  ax_yticks : option (list Q);
  ax_xticklabels : option (list PyVal);
  ax_yticklabels : option (list PyVal);
  ax_xtick_rotation : Z;
  ax_legend : option (list string)
}.

Record Figure : Type := { fig_size : Q * Q; fig_colorbars : nat }.

(** A fresh axis: no text, no artist, automatic ticks, no legend. *)
Definition new_axes : Axes :=
  {| ax_title := ""; ax_xlabel := ""; ax_ylabel := "";
     ax_artists := [];
     ax_xticks := None; ax_yticks := None;
     ax_xticklabels := None; ax_yticklabels := None;
     ax_xtick_rotation := 0%Z;
     ax_legend := None |}.

Definition new_figure (figsize : Q * Q) : Figure :=
  {| fig_size := figsize; fig_colorbars := 0 |}.

Definition with_title (s : string) (a : Axes) : Axes :=
  {| ax_title := s; ax_xlabel := ax_xlabel a; ax_ylabel := ax_ylabel a;
     ax_artists := ax_artists a;
     ax_xticks := ax_xticks a; ax_yticks := ax_yticks a;
     ax_xticklabels := ax_xticklabels a; ax_yticklabels := ax_yticklabels a;
     ax_xtick_rotation := ax_xtick_rotation a;
     ax_legend := ax_legend a |}.

Definition with_xlabel (s : string) (a : Axes) : Axes :=
  {| ax_title := ax_title a; ax_xlabel := s; ax_ylabel := ax_ylabel a;
     ax_artists := ax_artists a;
     ax_xticks := ax_xticks a; ax_yticks := ax_yticks a;
     ax_xticklabels := ax_xticklabels a; ax_yticklabels := ax_yticklabels a;
     ax_xtick_rotation := ax_xtick_rotation a;
     ax_legend := ax_legend a |}.

Definition with_ylabel (s : string) (a : Axes) : Axes :=
  {| ax_title := ax_title a; ax_xlabel := ax_xlabel a; ax_ylabel := s;
     ax_artists := ax_artists a;
     ax_xticks := ax_xticks a; ax_yticks := ax_yticks a;
     ax_xticklabels := ax_xticklabels a; ax_yticklabels := ax_yticklabels a;
     ax_xtick_rotation := ax_xtick_rotation a;
     ax_legend := ax_legend a |}.

(** A new artist goes after the ones already there. *)
Definition add_artist (x : Artist) (a : Axes) : Axes :=
  {| ax_title := ax_title a; ax_xlabel := ax_xlabel a; ax_ylabel := ax_ylabel a;
     ax_artists := ax_artists a ++ [x];
     ax_xticks := ax_xticks a; ax_yticks := ax_yticks a;
     ax_xticklabels := ax_xticklabels a; ax_yticklabels := ax_yticklabels a;
     ax_xtick_rotation := ax_xtick_rotation a;
     ax_legend := ax_legend a |}.

Definition with_xticks (t : list Q) (a : Axes) : Axes :=
  {| ax_title := ax_title a; ax_xlabel := ax_xlabel a; ax_ylabel := ax_ylabel a;
     ax_artists := ax_artists a;
     ax_xticks := Some t; ax_yticks := ax_yticks a;
     ax_xticklabels := ax_xticklabels a; ax_yticklabels := ax_yticklabels a;
     ax_xtick_rotation := ax_xtick_rotation a;
     ax_legend := ax_legend a |}.

Definition with_yticks (t : list Q) (a : Axes) : Axes :=
  {| ax_title := ax_title a; ax_xlabel := ax_xlabel a; ax_ylabel := ax_ylabel a;
     ax_artists := ax_artists a;
     ax_xticks := ax_xticks a; ax_yticks := Some t;
     ax_xticklabels := ax_xticklabels a; ax_yticklabels := ax_yticklabels a;
     ax_xtick_rotation := ax_xtick_rotation a;
     ax_legend := ax_legend a |}.

(** [set_xticklabels(l)] and [set_xticklabels(l, rotation=r)]. *)
Definition with_xticklabels (l : list PyVal) (rotation : option Z) (a : Axes)
    : Axes :=
  {| ax_title := ax_title a; ax_xlabel := ax_xlabel a; ax_ylabel := ax_ylabel a;
     ax_artists := ax_artists a;
     ax_xticks := ax_xticks a; ax_yticks := ax_yticks a;
     ax_xticklabels := Some l; ax_yticklabels := ax_yticklabels a;
     ax_xtick_rotation :=
       match rotation with Some r => r | None => ax_xtick_rotation a end;
     ax_legend := ax_legend a |}.

Definition with_yticklabels (l : list PyVal) (a : Axes) : Axes :=
  {| ax_title := ax_title a; ax_xlabel := ax_xlabel a; ax_ylabel := ax_ylabel a;
     ax_artists := ax_artists a;
     ax_xticks := ax_xticks a; ax_yticks := ax_yticks a;
     ax_xticklabels := ax_xticklabels a; ax_yticklabels := Some l;
     ax_xtick_rotation := ax_xtick_rotation a;
     ax_legend := ax_legend a |}.

(** The label under which an artist enters the legend: lines and bar
    containers carry one; a label that is empty or starts with an
    underscore is left out. *)
Definition legend_label (x : Artist) : option string :=
  match x with
  | Line2D _ _ l _ | BarContainer _ l _ =>
      match l with
      | EmptyString => None
      | String c _ => if Ascii.eqb c "_"%char then None else Some l
      end
  | _ => None
  end.

Fixpoint legend_entries (l : list Artist) : list string :=
  match l with
  | [] => []
  | x :: l' =>
      match legend_label x with
      | Some s => s :: legend_entries l'
      | None => legend_entries l'
      end
  end.

(** [ax.legend()]: the legend lists the labelled artists present when it
    is called. *)
Definition with_legend (a : Axes) : Axes :=
  {| ax_title := ax_title a; ax_xlabel := ax_xlabel a; ax_ylabel := ax_ylabel a;
     ax_artists := ax_artists a;
     ax_xticks := ax_xticks a; ax_yticks := ax_yticks a;
     ax_xticklabels := ax_xticklabels a; ax_yticklabels := ax_yticklabels a;
     ax_xtick_rotation := ax_xtick_rotation a;
     ax_legend := Some (legend_entries (ax_artists a)) |}.

(** The bars on an axis, container after container. *)
Fixpoint bars (l : list Artist) : list Rectangle :=
  match l with
  | [] => []
  | BarContainer ps _ _ :: l' => ps ++ bars l'
  | _ :: l' => bars l'
  end.

(** [np.arange(n)]. *)
Definition arange (n : nat) : list Q :=
  map (fun k => inject_Z (Z.of_nat k)) (seq 0 n).

(** [enumerate(l)]. *)
Definition enumerate {A : Type} (l : list A) : list (nat * A) :=
  combine (seq 0 (length l)) l.

(** How [bar] places a rectangle given at [x]: centred on [x] unless the
    style asks for [align="edge"]. *)
Definition bar_left (kw : Kwargs) (x width : Q) : Q :=
  match dict_get kw "align" with
  | Some (PStr "edge") => x
  | _ => (x - width / 2)%Q
  end.

Definition bar_patches (kw : Kwargs) (x : list Q) (height : list PyVal)
    (width : Q) : list Rectangle :=
  map (fun xh => {| rect_left := bar_left kw (fst xh) width;
                    rect_width := width;
                    rect_height := snd xh |})
      (combine x height).

(** What the renderer is asked to draw, with the arguments as bound. *)
Inductive BackendCall : Type :=
| call_plot (xdata ydata : list PyVal) (label : string) (kw : Kwargs)
| call_bar (x : list Q) (height : list PyVal) (width : Q) (label : string)
    (kw : Kwargs)
| call_scatter (xdata ydata : list PyVal) (kw : Kwargs)
| call_hist (xdata : list PyVal) (bins : PyVal) (kw : Kwargs)
| call_matshow (grid : list (list PyVal)) (cmap : PyVal).

(** What the collaborators decide on their own: whether a canvas of a
    given size can be allocated, whether the renderer accepts a drawing
    call on the axis as it stands (it raises otherwise), and the
    correlation coefficient of two columns. *)
Record Backend : Type := {
  subplots_ok : Q * Q -> bool;
  accepts : Axes -> BackendCall -> bool;
  pearson : list PyVal -> list PyVal -> PyVal
}.

(** ** The builder object *)

Record Plot : Type := {
  data : DataFrame;
  fig : Figure;
  ax : Axes;
  title : option string;
  x_label : option string;
  y_label : option string;
  color_scheme : Kwargs
}.

Definition set_ax (a : Axes) (self : Plot) : Plot :=
  {| data := data self; fig := fig self; ax := a;
     title := title self; x_label := x_label self; y_label := y_label self;
     color_scheme := color_scheme self |}.

Definition set_fig (f : Figure) (self : Plot) : Plot :=
  {| data := data self; fig := f; ax := ax self;
     title := title self; x_label := x_label self; y_label := y_label self;
     color_scheme := color_scheme self |}.

(** ** Methods as computations on [self] *)

(** A method body: it may mutate [self] and then return or raise. *)
Definition Py (A : Type) : Type := Plot -> Plot * Res A.

Definition ret {A : Type} (a : A) : Py A := fun self => (self, Val a).

Definition raise {A : Type} (e : Exn) : Py A := fun self => (self, Exc e).

Definition bind {A B : Type} (m : Py A) (f : A -> Py B) : Py B :=
  fun self =>
    match m self with
    | (self', Val a) => f a self'
    | (self', Exc e) => (self', Exc e)
    end.

Notation "x <- m ;; k" := (bind m (fun x => k))
  (at level 61, m at next level, right associativity).
Notation "m ;; k" := (bind m (fun _ => k))
  (at level 61, right associativity).

Definition get_self : Py Plot := fun self => (self, Val self).

Definition lift {A : Type} (r : Res A) : Py A := fun self => (self, r).

(** A call on [self.ax] that cannot fail. *)
Definition on_ax (f : Axes -> Axes) : Py unit :=
  fun self => (set_ax (f (ax self)) self, Val tt).

(** [for a in l: body(a)]. *)
Fixpoint for_each {A : Type} (body : A -> Py unit) (l : list A) : Py unit :=
  match l with
  | [] => ret tt
  | a :: l' => body a ;; for_each body l'
  end.

(** [self.data[col]]. *)
Definition self_data (col : string) : Py Series :=
  self <- get_self ;; lift (getitem (data self) col).

(** The first key of [kw] that is one of [names]. *)
Fixpoint first_clash (names : list string) (kw : Kwargs) : option string :=
  match kw with
  | [] => None
  | (k, _) :: kw' =>
      if existsb (String.eqb k) names then Some k else first_clash names kw'
  end.

(** A call [func(p1, .., pn, k1=.., .., **kw)]: a key of [kw] that repeats
    one of the keywords written at the call, or that names one of the
    parameters already bound by position, is a [TypeError]. *)
Definition bind_call (func : string) (positional keywords : list string)
    (kw : Kwargs) : Py unit :=
  match first_clash keywords kw with
  | Some k => raise (TypeError (RepeatedKeyword func k))
  | None =>
      match first_clash positional kw with
      | Some k => raise (TypeError (MultipleValues func k))
      | None => ret tt
      end
  end.

(** [a / n] with [n] a length. *)
Definition true_div (a : Q) (n : nat) : Py Q :=
  if Nat.eqb n 0 then raise ZeroDivisionError
  else ret (a / inject_Z (Z.of_nat n))%Q.

(** The right operand of [a * v] with [a] a float. *)
Definition number_operand (op : string) (v : PyVal) : Py Q :=
  match as_number v with
  | Some q => ret q
  | None => raise (TypeError (UnsupportedOperand op))
  end.

(** [(i - n / 2) * w]: where [BarPlot.plot] puts bar [i] of [n], relative
    to the tick. *)
Definition bar_offset (i n : nat) (w : Q) : Q :=
  ((inject_Z (Z.of_nat i) - inject_Z (Z.of_nat n) / 2) * w)%Q.

(** [y_cols]: one column name or a list of them. *)
Inductive YCols : Type :=
| YStr (s : string)
| YList (l : list string).

(** [[y_cols] if isinstance(y_cols, str) else y_cols]. *)
Definition as_list (y_cols : YCols) : list string :=
  match y_cols with
  | YStr s => [s]
  | YList l => l
  end.

(** ** The classes of [plot.py] *)

Section Classes.

Variable B : Backend.

(** A drawing primitive of the axis: the renderer accepts the call and
    adds the artist, or raises. *)
Definition draw (c : BackendCall) (x : Artist) : Py unit :=
  self <- get_self ;;
  if accepts B (ax self) c then on_ax (add_artist x) else raise BackendError.

(** [self.ax.plot(xdata, ydata, label=label, **kw)]. *)
Definition ax_plot (xdata ydata : list PyVal) (label : string) (kw : Kwargs)
    : Py unit :=
  bind_call "plot" [] ["label"] kw ;;
  draw (call_plot xdata ydata label kw) (Line2D xdata ydata label kw).

(** [self.ax.bar(x, height, width, label=label, **kw)]; the renderer's
    signature is [bar(x, height, width=0.8, bottom=None, *, align="center",
    **kwargs)]. *)
Definition ax_bar (x : list Q) (height : list PyVal) (width : Q)
    (label : string) (kw : Kwargs) : Py unit :=
  bind_call "bar" ["x"; "height"; "width"] ["label"] kw ;;
  draw (call_bar x height width label kw)
       (BarContainer (bar_patches kw x height width) label kw).

(** [self.ax.scatter(x, y, **kw)]; the renderer's signature starts
    [scatter(x, y, ...)]. *)
Definition ax_scatter (xdata ydata : list PyVal) (kw : Kwargs) : Py unit :=
  bind_call "scatter" ["x"; "y"] [] kw ;;
  draw (call_scatter xdata ydata kw) (PathCollection xdata ydata kw).

(** [self.ax.hist(x, bins=bins, **kw)]; the renderer's signature starts
    [hist(x, ...)]. *)
Definition ax_hist (xdata : list PyVal) (bins : PyVal) (kw : Kwargs)
    : Py unit :=
  bind_call "hist" ["x"] ["bins"] kw ;;
  draw (call_hist xdata bins kw) (HistPatches xdata bins kw).

(** [self.ax.matshow(grid, cmap=cmap)]. *)
Definition ax_matshow (grid : list (list PyVal)) (cmap : PyVal) : Py unit :=
  draw (call_matshow grid cmap) (AxesImage grid cmap).

(** [self.fig.colorbar(cax)]. *)
Definition fig_colorbar : Py unit :=
  fun self =>
    (set_fig {| fig_size := fig_size (fig self);
                fig_colorbars := S (fig_colorbars (fig self)) |} self,
     Val tt).

(** [df.corr()]: the grid of pairwise coefficients of the columns. *)
Definition corr (df : DataFrame) : list (list PyVal) :=
  map (fun ci =>
         map (fun cj => pearson B (values (snd ci)) (values (snd cj)))
             (df_cols df))
      (df_cols df).

(** *** class Plot *)

Definition _validate_data (data : PyData) : Res DataFrame :=
  match data with
  | DataFrameObj df => Val df
  | DictObj d => pd_DataFrame d
  | OtherObj _ => Exc (ValueError "Data must be a pandas DataFrame or dictionary.")
  end.

(** [Plot.__init__]; the subclasses inherit it unchanged. The defaults of
    the optional arguments are [None], and [(10, 6)] for [figsize].
    [color_scheme or {}] is the given dict, or an empty one when it is
    [None] or empty. *)
Definition __init__ (data : PyData) (title x_label y_label : option string)
    (color_scheme : option Kwargs) (figsize : Q * Q) : Res Plot :=
  match _validate_data data with
  | Exc e => Exc e
  | Val df =>
      if subplots_ok B figsize then
        Val (Build_Plot df (new_figure figsize) new_axes
               title x_label y_label
               (match color_scheme with Some d => d | None => [] end))
      else Exc BackendError
  end.

Definition default_figsize : Q * Q := (10, 6)%Q.

(** [if v: setter(v)]. *)
Definition if_truthy (v : option string) (setter : string -> Axes -> Axes)
    : Py unit :=
  match v with
  | Some s => if truthy v then on_ax (setter s) else ret tt
  | None => ret tt
  end.

Definition set_labels (title x_label y_label : option string) : Py unit :=
  if_truthy title with_title ;;
  if_truthy x_label with_xlabel ;;
  if_truthy y_label with_ylabel.

(** *** class LinePlot *)

Definition LinePlot_plot (x_col : string) (y_cols : YCols) (kwargs : Kwargs)
    : Py unit :=
  let y_cols := as_list y_cols in
  for_each (fun col =>
              xs <- self_data x_col ;;
              ys <- self_data col ;;
              ax_plot (values xs) (values ys) col kwargs)
           y_cols ;;
  on_ax with_legend ;;
  self <- get_self ;;
  set_labels (Some (py_or (title self) "Line Plot"))
             (Some (py_or (x_label self) x_col))
             (Some (py_or (y_label self) "Values")).

(** *** class BarPlot *)

Definition BarPlot_plot (x_col : string) (y_cols : YCols) (kwargs : Kwargs)
    : Py unit :=
  let y_cols := as_list y_cols in
  xs <- self_data x_col ;;
  let x := arange (length (values xs)) in
  default <- true_div (8 # 10) (length y_cols) ;;
  let width := kwargs_get kwargs "width" (PFloat default) in
  for_each (fun ic =>
              let i := fst ic in
              let col := snd ic in
              w <- number_operand "*" width ;;
              let offset := bar_offset i (length y_cols) w in
              height <- self_data col ;;
              ax_bar (map (fun xk => (xk + offset)%Q) x) (values height) w
                     col kwargs)
           (enumerate y_cols) ;;
  on_ax (with_xticks x) ;;
  labels <- self_data x_col ;;
  on_ax (with_xticklabels (values labels) None) ;;
  on_ax with_legend ;;
  self <- get_self ;;
  set_labels (Some (py_or (title self) "Bar Plot"))
             (Some (py_or (x_label self) x_col))
             (Some (py_or (y_label self) "Values")).

(** *** class ScatterPlot *)

Definition ScatterPlot_plot (x_col y_col : string) (kwargs : Kwargs)
    : Py unit :=
  xs <- self_data x_col ;;
  ys <- self_data y_col ;;
  ax_scatter (values xs) (values ys) kwargs ;;
  self <- get_self ;;
  set_labels (Some (py_or (title self) "Scatter Plot"))
             (Some (py_or (x_label self) x_col))
             (Some (py_or (y_label self) y_col)).

(** *** class Histogram *)

Definition default_bins : PyVal := PInt 10.

Definition Histogram_plot (col : string) (bins : PyVal) (kwargs : Kwargs)
    : Py unit :=
  xs <- self_data col ;;
  ax_hist (values xs) bins kwargs ;;
  self <- get_self ;;
  set_labels (Some (py_or (title self) "Histogram"))
             (Some (py_or (x_label self) col))
             (Some (py_or (y_label self) "Frequency")).

(** *** class Heatmap *)

Definition Heatmap_plot (kwargs : Kwargs) : Py unit :=
  self <- get_self ;;
  let numeric_data := select_dtypes_number (data self) in
  if empty numeric_data then
    raise (ValueError "No numeric data available to plot a heatmap.")
  else
    ax_matshow (corr numeric_data)
               (kwargs_get kwargs "cmap" (PStr "coolwarm")) ;;
    fig_colorbar ;;
    on_ax (with_xticks (arange (length (columns numeric_data)))) ;;
    on_ax (with_yticks (arange (length (columns numeric_data)))) ;;
    on_ax (with_xticklabels (map PStr (columns numeric_data)) (Some 90%Z)) ;;
    on_ax (with_yticklabels (map PStr (columns numeric_data))) ;;
    set_labels (Some (py_or (title self) "Heatmap")) None None.

(** *** The five draw calls as one closed set *)

Inductive DrawCall : Type :=
| Line (x_col : string) (y_cols : YCols) (kwargs : Kwargs)
| Bar (x_col : string) (y_cols : YCols) (kwargs : Kwargs)
| Scatter (x_col y_col : string) (kwargs : Kwargs)
| Hist (col : string) (bins : PyVal) (kwargs : Kwargs)
| Heat (kwargs : Kwargs).

Definition plot (c : DrawCall) : Py unit :=
  match c with
  | Line x_col y_cols kwargs => LinePlot_plot x_col y_cols kwargs
  | Bar x_col y_cols kwargs => BarPlot_plot x_col y_cols kwargs
  | Scatter x_col y_col kwargs => ScatterPlot_plot x_col y_col kwargs
  | Hist col bins kwargs => Histogram_plot col bins kwargs
  | Heat kwargs => Heatmap_plot kwargs
  end.

End Classes.

(** ** The data of [test.py] and a renderer that accepts every call *)

Definition permissive : Backend :=
  {| subplots_ok := fun _ => true;
     accepts := fun _ _ => true;
     pearson := fun _ _ => PFloat 1 |}.

Definition test_data : Dict (list PyVal) :=
  [ ("Category", [PStr "A"; PStr "B"; PStr "C"; PStr "D"]);
    ("Values1", [PInt 10; PInt 15; PInt 20; PInt 25]);
    ("Values2", [PInt 20; PInt 25; PInt 30; PInt 35]);
    ("Values3", [PInt 5; PInt 10; PInt 15; PInt 20]);
    ("Values4", [PInt 2; PInt 4; PInt 6; PInt 8]);
    ("Values5", [PInt 3; PInt 6; PInt 9; PInt 12]) ].

(** [Cls(data)], every optional argument left out. *)
Definition construct (B : Backend) (data : PyData) : Res Plot :=
  __init__ B data None None None None default_figsize.

(** The object [Cls(test_data)]. *)
Definition test_plot : Plot :=
  match construct permissive (DictObj test_data) with
  | Val p => p
  | Exc _ => Build_Plot (Build_DataFrame [] 0) (new_figure default_figsize)
               new_axes None None None []
  end.

(** ** Observations used in the statements *)

(** The three texts of the chart, as they stand on the surface. *)
Definition labels (self : Plot) : string * string * string :=
  (ax_title (ax self), ax_xlabel (ax self), ax_ylabel (ax self)).

(** [self] with the three texts replaced and nothing else touched. *)
Definition relabel (t x y : string) (self : Plot) : Plot :=
  set_ax (with_ylabel y (with_xlabel x (with_title t (ax self)))) self.

(** Everything of the builder beside the three texts on the surface. *)
Definition beside_texts (self : Plot)
    : DataFrame * Figure * option string * option string * option string
      * Kwargs
      * (list Artist * option (list Q) * option (list Q)
         * option (list PyVal) * option (list PyVal) * Z
         * option (list string)) :=
  (data self, fig self, title self, x_label self, y_label self,
   color_scheme self,
   (ax_artists (ax self), ax_xticks (ax self), ax_yticks (ax self),
    ax_xticklabels (ax self), ax_yticklabels (ax self),
    ax_xtick_rotation (ax self), ax_legend (ax self))).

(** [self] with another colour mapping and nothing else touched. *)
Definition with_color_scheme (cs : Kwargs) (self : Plot) : Plot :=
  {| data := data self; fig := fig self; ax := ax self;
     title := title self; x_label := x_label self; y_label := y_label self;
     color_scheme := cs |}.

(** What a draw call reads of [self] and, until its last step, leaves
    alone: the table, the three label fields given at construction, and
    the three texts on the surface. *)
Definition frame (self : Plot)
    : DataFrame * option string * option string * option string
      * (string * string * string) :=
  (data self, title self, x_label self, y_label self, labels self).

(** The title and axis labels a draw call falls back on. The heat map has
    no axis-label default. *)
Definition default_title (c : DrawCall) : string :=
  match c with
  | Line _ _ _ => "Line Plot"
  | Bar _ _ _ => "Bar Plot"
  | Scatter _ _ _ => "Scatter Plot"
  | Hist _ _ _ => "Histogram"
  | Heat _ => "Heatmap"
  end.

Definition default_x_label (c : DrawCall) : option string :=
  match c with
  | Line x_col _ _ | Bar x_col _ _ | Scatter x_col _ _ => Some x_col
  | Hist col _ _ => Some col
  | Heat _ => None
  end.

Definition default_y_label (c : DrawCall) : option string :=
  match c with
  | Line _ _ _ | Bar _ _ _ => Some "Values"
  | Scatter _ y_col _ => Some y_col
  | Hist _ _ _ => Some "Frequency"
  | Heat _ => None
  end.

(** The text on the surface after a draw call that returns: the label
    field when it is non-empty, else the default when there is one and it
    is non-empty, else the text that was there. *)
Definition shown (field default : option string) (old : string) : string :=
  match default with
  | Some d => py_or (Some (py_or field d)) old
  | None => old
  end.



Definition absent (df : DataFrame) (col : string) : bool :=
  negb (dict_has (df_cols df) col).







(** A column of one kind: integers only, finite floats only, booleans
    only or strings only. *)
Definition one_kind (vs : list PyVal) : bool :=
  forallb is_pyint vs || forallb is_finite_float vs
  || forallb is_pybool vs || forallb is_pystr vs.

(** A mapping with [None] beside an integer, and an integer above 2^53
    beside a float. *)
Definition mixed_data : Dict (list PyVal) :=
  [("a", [PInt 1; PNone]);
   ("b", [PInt (2 ^ 53 + 1); PFloat (1 # 2)])]%string.

(** The sequences of a mapping all have one length. *)
Definition equal_lengths (d : Dict (list PyVal)) : Prop :=
  forall kv kv', In kv d -> In kv' d -> length (snd kv) = length (snd kv').

(** The input is a table, or a mapping whose sequences have one length. *)
Definition convertible (data : PyData) : Prop :=
  match data with
  | DataFrameObj _ => True
  | DictObj d => equal_lengths d
  | OtherObj _ => False
  end.

(** The input is a table or a mapping from column names to sequences. *)
Definition table_or_mapping (data : PyData) : bool :=
  match data with
  | DataFrameObj _ | DictObj _ => true
  | OtherObj _ => false
  end.

(** A mapping with sequences of two lengths. *)
Definition ragged_data : Dict (list PyVal) :=
  [ ("a", [PInt 1; PInt 2]); ("b", [PInt 3]) ].

(** A table with one floating-point column and no row. *)
Definition numeric_table_without_rows : DataFrame :=
  {| df_cols := [("a", {| dtype := float64; values := [] |})]; nrows := 0 |}.

(** The bars of category [k]: the [k]-th rectangle of every container. *)
Fixpoint group (k : nat) (l : list Artist) : list Rectangle :=
  match l with
  | [] => []
  | BarContainer ps _ _ :: l' =>
      match nth_error ps k with
      | Some r => r :: group k l'
      | None => group k l'
      end
  | _ :: l' => group k l'
  end.

(** The leftmost and the rightmost edge of a group of bars. *)
Fixpoint span (g : list Rectangle) : option (Q * Q) :=
  match g with
  | [] => None
  | r :: g' =>
      match span g' with
      | None => Some (rect_left r, rect_right r)
      | Some (lo, hi) => Some (Qmin (rect_left r) lo, Qmax (rect_right r) hi)
      end
  end.

(** A group of bars is centred on a tick when it reaches as far to the
    left of the tick as to the right. *)
Definition centred_on (tick : Q) (g : list Rectangle) : Prop :=
  match span g with
  | Some (lo, hi) => (tick - lo == hi - tick)%Q
  | None => True
  end.

(** Two bars overlap when their interiors meet. *)
Definition overlap (r1 r2 : Rectangle) : bool :=
  negb (Qle_bool (rect_right r2) (rect_left r1))
  && negb (Qle_bool (rect_right r1) (rect_left r2)).

(** The edges of a bar, as fractions in lowest terms. *)
Definition edges (r : Rectangle) : Q * Q :=
  (Qred (rect_left r), Qred (rect_right r)).

(** The bar chart of [test.py]: two y-columns over the four categories. *)
Definition test_bar_call (kwargs : Kwargs) : DrawCall :=
  Bar "Category" (YList ["Values1"; "Values2"]) kwargs.

(** ** Predicates on computations *)

(** A computation that neither reads nor writes [color_scheme]. *)
Definition ignores_color_scheme {A : Type} (m : Py A) : Prop :=
  forall cs self,
    m (with_color_scheme cs self)
    = (with_color_scheme cs (fst (m self)), snd (m self)).

(** A computation that leaves the frame as it was. *)
Definition keeps {A : Type} (m : Py A) : Prop :=
  forall self, frame (fst (m self)) = frame self.

(** [post m self Qv Qe]: run from [self], [m] returns in a state and with
    a value that satisfy [Qv], or raises in a state and with an exception
    that satisfy [Qe]. *)
Definition post {A : Type} (m : Py A) (self : Plot)
    (Qv : Plot -> A -> Prop) (Qe : Plot -> Exn -> Prop) : Prop :=
  match m self with
  | (self', Val a) => Qv self' a
  | (self', Exc e) => Qe self' e
  end.

(** The texts a draw call of kind [c] shows when it returns. *)
Definition texts_after (c : DrawCall) (self : Plot)
    : string * string * string :=
  (py_or (title self) (default_title c),
   shown (x_label self) (default_x_label c) (ax_xlabel (ax self)),
   shown (y_label self) (default_y_label c) (ax_ylabel (ax self))).

(** The outcome of a draw call, as far as the texts go. *)
Definition labelled (c : DrawCall) (base : Plot)
    (self' : Plot) (_ : unit) : Prop :=
  (data self', title self', x_label self', y_label self')
  = (data base, title base, x_label base, y_label base)
  /\ labels self' = texts_after c base.

(** The outcome of a draw call that raises. *)
Definition untouched (base : Plot) (self' : Plot) (_ : Exn) : Prop :=
  frame self' = frame base.

(** The last step of every draw call, [s] being the [self] whose label
    fields are read. *)
Definition finish (c : DrawCall) (s : Plot) : Py unit :=
  set_labels (Some (py_or (title s) (default_title c)))
             (option_map (py_or (x_label s)) (default_x_label c))
             (option_map (py_or (y_label s)) (default_y_label c)).

(** The outcome that does not happen. *)
Definition never {A : Type} (_ : Plot) (_ : A) : Prop := False.

(** A property of [self] that a computation maintains. *)
Definition stable {A : Type} (I : Plot -> Prop) (m : Py A) : Prop :=
  forall self, I self -> I (fst (m self)).

(** Since [base], bars were only added, each satisfying [P]. *)
Definition added_bars (P : Rectangle -> Prop) (base self' : Plot) : Prop :=
  exists added,
    bars (ax_artists (ax self')) = bars (ax_artists (ax base)) ++ added
    /\ Forall P added.




(** No two of the bars overlap. *)
Definition disjoint_bars (bs : list Rectangle) : bool :=
  forallb (fun i =>
             forallb (fun j =>
                        Nat.eqb i j
                        || match nth_error bs i, nth_error bs j with
                           | Some a, Some b => negb (overlap a b)
                           | _, _ => true
                           end)
                     (seq 0 (length bs)))
          (seq 0 (length bs)).

(** ** Further observations *)

(** The cells of a column, none when the column is absent. *)
Definition cells (df : DataFrame) (col : string) : list PyVal :=
  match dict_get (df_cols df) col with
  | Some s => values s
  | None => []
  end.

(** [self] after the artists of [l] were added to its axis, one after
    the other. *)
Definition add_artists (l : list Artist) (self : Plot) : Plot :=
  fold_left (fun s a => set_ax (add_artist a (ax s)) s) l self.

(** None of [names] is a key of the keywords. *)
Definition free_of (names : list string) (kw : Kwargs) : Prop :=
  forall k, In k names -> dict_get kw k = None.

(** The renderer accepts every call. *)
Definition accepting (B : Backend) : Prop :=
  forall a call, accepts B a call = true.

(** The later of two arguments of [set_labels] that counts: the second
    when it is truthy, else the first. *)
Definition later (second first : option string) : option string :=
  if truthy second then second else first.

(** The series that [LinePlot.plot] draws for the y-column [y]. *)
Definition line_of (df : DataFrame) (x_col : string) (kw : Kwargs)
    (y : string) : Artist :=
  Line2D (cells df x_col) (cells df y) y kw.




(** The builder on the numeric columns of [test.py] alone. *)
Definition test_numeric_plot : Plot :=
  match construct permissive (DictObj (tl test_data)) with
  | Val p => p
  | Exc _ => test_plot
  end.

(** * Properties *)

(** ** Setting labels *)

Lemma if_truthy_title (v : option string) (self : Plot) :
  if_truthy v with_title self
  = (relabel (py_or v (ax_title (ax self))) (ax_xlabel (ax self))
       (ax_ylabel (ax self)) self, Val tt).
Proof.
  destruct self as [d f a t x y c], a; destruct v as [s|]; simpl;
    [destruct (String.eqb s ""); reflexivity | reflexivity].
Qed.

Lemma if_truthy_xlabel (v : option string) (self : Plot) :
  if_truthy v with_xlabel self
  = (relabel (ax_title (ax self)) (py_or v (ax_xlabel (ax self)))
       (ax_ylabel (ax self)) self, Val tt).
Proof.
  destruct self as [d f a t x y c], a; destruct v as [s|]; simpl;
    [destruct (String.eqb s ""); reflexivity | reflexivity].
Qed.

Lemma if_truthy_ylabel (v : option string) (self : Plot) :
  if_truthy v with_ylabel self
  = (relabel (ax_title (ax self)) (ax_xlabel (ax self))
       (py_or v (ax_ylabel (ax self))) self, Val tt).
Proof.
  destruct self as [d f a t x y c], a; destruct v as [s|]; simpl;
    [destruct (String.eqb s ""); reflexivity | reflexivity].
Qed.

(** What [set_labels] does, in one equation: each text becomes the
    argument when it is truthy and stays as it was otherwise. *)
Lemma set_labels_eq (t x y : option string) (self : Plot) :
  set_labels t x y self
  = (relabel (py_or t (ax_title (ax self))) (py_or x (ax_xlabel (ax self)))
       (py_or y (ax_ylabel (ax self))) self, Val tt).
Proof.
  unfold set_labels, bind.
  rewrite if_truthy_title, if_truthy_xlabel, if_truthy_ylabel.
  reflexivity.
Qed.

Lemma py_or_falsy (v : option string) (d : string) :
  truthy v = false -> py_or v d = d.
Proof.
  destruct v as [s|]; simpl; [|reflexivity].
  destruct (String.eqb s ""); [reflexivity | discriminate].
Qed.

Lemma py_or_truthy (s d : string) : s <> "" -> py_or (Some s) d = s.
Proof.
  intros Hs. simpl. destruct (String.eqb_spec s ""); [contradiction | reflexivity].
Qed.

Lemma relabel_same (self : Plot) :
  relabel (ax_title (ax self)) (ax_xlabel (ax self)) (ax_ylabel (ax self)) self
  = self.
Proof. destruct self as [d f a t x y c], a; reflexivity. Qed.

(** C4. [set_labels] returns, and changes exactly the texts whose argument
    is non-empty. The title on the surface is the [title] argument when
    that is a non-empty string, and is what it was when the argument is
    omitted ([None]) or empty; so for the x-label and the y-label.
    Everything beside the three texts (the artists, ticks, tick labels
    and legend of the axis, the table, the canvas, the three label
    fields and the colour mapping) is what it was. With all three
    arguments omitted or empty the builder is unchanged; with only
    [title="X"] the title is "X" and the x-label and y-label are what
    they were. *)
Theorem set_labels_changes_exactly_nonempty_arguments
    (self : Plot) (t x y : option string) :
  snd (set_labels t x y self) = Val tt
  /\ (forall s, t = Some s -> s <> ""%string ->
      ax_title (ax (fst (set_labels t x y self))) = s)
  /\ (truthy t = false ->
      ax_title (ax (fst (set_labels t x y self))) = ax_title (ax self))
  /\ (forall s, x = Some s -> s <> ""%string ->
      ax_xlabel (ax (fst (set_labels t x y self))) = s)
  /\ (truthy x = false ->
      ax_xlabel (ax (fst (set_labels t x y self))) = ax_xlabel (ax self))
  /\ (forall s, y = Some s -> s <> ""%string ->
      ax_ylabel (ax (fst (set_labels t x y self))) = s)
  /\ (truthy y = false ->
      ax_ylabel (ax (fst (set_labels t x y self))) = ax_ylabel (ax self))
  /\ beside_texts (fst (set_labels t x y self)) = beside_texts self
  /\ (truthy t = false -> truthy x = false -> truthy y = false ->
      set_labels t x y self = (self, Val tt))
  /\ (ax_title (ax (fst (set_labels (Some "X") None None self)))
      = "X"%string
      /\ ax_xlabel (ax (fst (set_labels (Some "X") None None self)))
         = ax_xlabel (ax self)
      /\ ax_ylabel (ax (fst (set_labels (Some "X") None None self)))
         = ax_ylabel (ax self)
      /\ snd (set_labels (Some "X") None None self) = Val tt).
Proof.
  rewrite !set_labels_eq. cbn [fst snd].
  split; [reflexivity|].
  split; [intros s -> Hs; rewrite (py_or_truthy _ _ Hs);
          destruct self as [d f a t0 x0 y0 c], a; reflexivity|].
  split; [intros Ht; rewrite (py_or_falsy _ _ Ht);
          destruct self as [d f a t0 x0 y0 c], a; reflexivity|].
  split; [intros s -> Hs; rewrite (py_or_truthy _ _ Hs);
          destruct self as [d f a t0 x0 y0 c], a; reflexivity|].
  split; [intros Hx; rewrite (py_or_falsy _ _ Hx);
          destruct self as [d f a t0 x0 y0 c], a; reflexivity|].
  split; [intros s -> Hs; rewrite (py_or_truthy _ _ Hs);
          destruct self as [d f a t0 x0 y0 c], a; reflexivity|].
  split; [intros Hy; rewrite (py_or_falsy _ _ Hy);
          destruct self as [d f a t0 x0 y0 c], a; reflexivity|].
  split; [destruct self as [d f a t0 x0 y0 c], a; reflexivity|].
  split.
  - intros Ht Hx Hy.
    rewrite (py_or_falsy _ _ Ht), (py_or_falsy _ _ Hx), (py_or_falsy _ _ Hy).
    now rewrite relabel_same.
  - destruct self as [d f a t0 x0 y0 c], a. repeat split.
Qed.

(** On the bar chart of [test.py], whose texts are "Bar Plot",
    "Category" and "Values", [set_labels(title="X")] leaves "X",
    "Category" and "Values". *)
Lemma set_labels_changes_exactly_nonempty_arguments_witness :
  labels (fst (plot permissive (test_bar_call []) test_plot))
  = ("Bar Plot", "Category", "Values")%string
  /\ ax_title (ax (fst (set_labels (Some "X") None None
                          (fst (plot permissive (test_bar_call [])
                                  test_plot)))))
     = "X"%string
  /\ ax_xlabel (ax (fst (set_labels (Some "X") None None
                           (fst (plot permissive (test_bar_call [])
                                   test_plot)))))
     = "Category"%string
  /\ ax_ylabel (ax (fst (set_labels (Some "X") None None
                           (fst (plot permissive (test_bar_call [])
                                   test_plot)))))
     = "Values"%string.
Proof.
  split; [reflexivity|].
  pose proof (set_labels_changes_exactly_nonempty_arguments
                (fst (plot permissive (test_bar_call []) test_plot))
                (Some "X"%string) None None)
    as (_ & Ht & _ & _ & Hx & _ & Hy & _).
  split; [exact (Ht "X"%string eq_refl ltac:(discriminate))|].
  split; [exact (Hx eq_refl) | exact (Hy eq_refl)].
Defined.

(** ** One column name or a list of one name *)

(** C10. For the Line and the Bar draw calls, a single column name given
    as a string for [y_cols] is the same call as the one-element list of
    that name: the same builder state (series or bars, legend, labels) and
    the same outcome result from both. *)
Theorem single_name_same_as_singleton_list
    (B : Backend) (x_col s : string) (kwargs : Kwargs) (self : Plot) :
  LinePlot_plot B x_col (YStr s) kwargs self
  = LinePlot_plot B x_col (YList [s]) kwargs self
  /\ BarPlot_plot B x_col (YStr s) kwargs self
     = BarPlot_plot B x_col (YList [s]) kwargs self.
Proof. split; reflexivity. Qed.

(** ** The colour mapping is stored and never read *)

Lemma ignores_ret {A : Type} (a : A) : ignores_color_scheme (ret a).
Proof. intros cs self; reflexivity. Qed.

Lemma ignores_raise {A : Type} (e : Exn) :
  ignores_color_scheme (@raise A e).
Proof. intros cs self; reflexivity. Qed.

Lemma ignores_lift {A : Type} (r : Res A) : ignores_color_scheme (lift r).
Proof. intros cs self; reflexivity. Qed.

Lemma ignores_on_ax (f : Axes -> Axes) : ignores_color_scheme (on_ax f).
Proof. intros cs self; reflexivity. Qed.

Lemma ignores_bind {A C : Type} (m : Py A) (f : A -> Py C) :
  ignores_color_scheme m ->
  (forall a, ignores_color_scheme (f a)) ->
  ignores_color_scheme (bind m f).
Proof.
  intros Hm Hf cs self. unfold bind. rewrite Hm.
  destruct (m self) as [self' [a|e]]; simpl; [apply Hf | reflexivity].
Qed.

(** Reading [self] is harmless when the continuation looks only at the
    other fields. *)
Lemma ignores_get_self {A : Type} (k : Plot -> Py A) :
  (forall cs self, k (with_color_scheme cs self) = k self) ->
  (forall q, ignores_color_scheme (k q)) ->
  ignores_color_scheme (bind get_self k).
Proof.
  intros Hk Hq cs self. unfold bind, get_self. rewrite Hk. apply Hq.
Qed.

Lemma ignores_for_each {A : Type} (body : A -> Py unit) (l : list A) :
  (forall a, ignores_color_scheme (body a)) ->
  ignores_color_scheme (for_each body l).
Proof.
  intros Hb. induction l as [|a l IH]; simpl.
  - apply ignores_ret.
  - apply ignores_bind; [apply Hb | intros _; exact IH].
Qed.

Lemma ignores_self_data (col : string) : ignores_color_scheme (self_data col).
Proof.
  apply ignores_get_self; [reflexivity | intros q; apply ignores_lift].
Qed.

Lemma ignores_bind_call (func : string) (ps ks : list string) (kw : Kwargs) :
  ignores_color_scheme (bind_call func ps ks kw).
Proof.
  unfold bind_call.
  destruct (first_clash ks kw); [apply ignores_raise|].
  destruct (first_clash ps kw); [apply ignores_raise | apply ignores_ret].
Qed.

Lemma ignores_draw (B : Backend) (c : BackendCall) (x : Artist) :
  ignores_color_scheme (draw B c x).
Proof.
  apply ignores_get_self; [reflexivity|].
  intros q. destruct (accepts B (ax q) c);
    [apply ignores_on_ax | apply ignores_raise].
Qed.

Lemma ignores_set_labels (t x y : option string) :
  ignores_color_scheme (set_labels t x y).
Proof.
  intros cs self. rewrite !set_labels_eq. reflexivity.
Qed.

Create HintDb ignores.

#[local] Hint Resolve ignores_ret ignores_raise ignores_lift ignores_on_ax
  ignores_self_data ignores_bind_call ignores_draw ignores_set_labels
  : ignores.

Ltac ignores_step :=
  lazymatch goal with
  | |- ignores_color_scheme (for_each _ _) =>
      apply ignores_for_each; intros ?
  | |- ignores_color_scheme (bind get_self _) =>
      apply ignores_get_self; [reflexivity | intros ?]
  | |- ignores_color_scheme (bind _ _) =>
      apply ignores_bind; [| intros ?]
  | |- ignores_color_scheme (if ?b then _ else _) => destruct b
  | |- ignores_color_scheme (match ?o with Some _ => _ | None => _ end) =>
      destruct o
  | |- ignores_color_scheme _ => solve [auto with ignores]
  end.

Lemma ignores_fig_colorbar : ignores_color_scheme fig_colorbar.
Proof. intros cs self; reflexivity. Qed.

#[local] Hint Resolve ignores_fig_colorbar : ignores.

Lemma ignores_plot (B : Backend) (c : DrawCall) :
  ignores_color_scheme (plot B c).
Proof.
  destruct c as [x_col y_cols kw | x_col y_cols kw | x_col y_col kw
                | col bins kw | kw]; simpl.
  - unfold LinePlot_plot, ax_plot. repeat ignores_step.
  - unfold BarPlot_plot, ax_bar, true_div, number_operand.
    repeat ignores_step.
  - unfold ScatterPlot_plot, ax_scatter. repeat ignores_step.
  - unfold Histogram_plot, ax_hist. repeat ignores_step.
  - unfold Heatmap_plot, ax_matshow. repeat ignores_step.
Qed.

(** C9. The colour mapping given at construction is accepted and stored
    (as given, or as an empty mapping when omitted) and no draw operation
    consults it: construction succeeds or fails alike whatever the
    mapping, and for two builders that differ only in [color_scheme],
    every draw call of every chart kind has the same outcome and leaves
    the same builder state (artists, labels, ticks, legend, figure), the
    two results again differing only in [color_scheme]. *)
Theorem color_scheme_stored_never_consulted
    (B : Backend) (data : PyData) (t x y : option string)
    (cs : option Kwargs) (figsize : Q * Q) (c : DrawCall)
    (cs' : Kwargs) (self : Plot) :
  __init__ B data t x y cs figsize
  = match __init__ B data t x y None figsize with
    | Val p => Val (with_color_scheme
                      (match cs with Some d => d | None => [] end) p)
    | Exc e => Exc e
    end
  /\ plot B c (with_color_scheme cs' self)
     = (with_color_scheme cs' (fst (plot B c self)), snd (plot B c self))
  /\ set_labels t x y (with_color_scheme cs' self)
     = (with_color_scheme cs' (fst (set_labels t x y self)),
        snd (set_labels t x y self)).
Proof.
  split; [|split].
  - unfold __init__. destruct (_validate_data data); [|reflexivity].
    destruct (subplots_ok B figsize); reflexivity.
  - apply ignores_plot.
  - apply ignores_set_labels.
Qed.

(** ** What a draw call leaves alone *)

Lemma keeps_ret {A : Type} (a : A) : keeps (ret a).
Proof. intros self; reflexivity. Qed.

Lemma keeps_raise {A : Type} (e : Exn) : keeps (@raise A e).
Proof. intros self; reflexivity. Qed.

Lemma keeps_lift {A : Type} (r : Res A) : keeps (lift r).
Proof. intros self; reflexivity. Qed.

Lemma keeps_get_self : keeps get_self.
Proof. intros self; reflexivity. Qed.

Lemma keeps_bind {A C : Type} (m : Py A) (f : A -> Py C) :
  keeps m -> (forall a, keeps (f a)) -> keeps (bind m f).
Proof.
  intros Hm Hf self. unfold bind. specialize (Hm self).
  destruct (m self) as [self' [a|e]]; simpl in *.
  - rewrite Hf. exact Hm.
  - exact Hm.
Qed.

Lemma keeps_for_each {A : Type} (body : A -> Py unit) (l : list A) :
  (forall a, keeps (body a)) -> keeps (for_each body l).
Proof.
  intros Hb. induction l as [|a l IH]; simpl.
  - apply keeps_ret.
  - apply keeps_bind; [apply Hb | intros _; exact IH].
Qed.

(** A call on the axis keeps the frame when it keeps the three texts. *)
Lemma keeps_on_ax (f : Axes -> Axes) :
  (forall a, (ax_title (f a), ax_xlabel (f a), ax_ylabel (f a))
             = (ax_title a, ax_xlabel a, ax_ylabel a)) ->
  keeps (on_ax f).
Proof.
  intros Hf self. unfold frame, labels. simpl.
  specialize (Hf (ax self)). congruence.
Qed.

Lemma keeps_fig_colorbar : keeps fig_colorbar.
Proof. intros self; reflexivity. Qed.

Create HintDb keeps.

#[local] Hint Resolve keeps_ret keeps_raise keeps_lift keeps_get_self
  keeps_fig_colorbar : keeps.

Ltac keeps_step :=
  lazymatch goal with
  | |- keeps (for_each _ _) => apply keeps_for_each; intros ?
  | |- keeps (bind _ _) => apply keeps_bind; [| intros ?]
  | |- keeps (on_ax _) => apply keeps_on_ax; intros ?; reflexivity
  | |- keeps (if ?b then _ else _) => destruct b
  | |- keeps (match ?o with Some _ => _ | None => _ end) => destruct o
  | |- keeps _ => solve [auto with keeps]
  end.

Lemma keeps_self_data (col : string) : keeps (self_data col).
Proof. unfold self_data. repeat keeps_step. Qed.

Lemma keeps_bind_call (func : string) (ps ks : list string) (kw : Kwargs) :
  keeps (bind_call func ps ks kw).
Proof. unfold bind_call. repeat keeps_step. Qed.

Lemma keeps_draw (B : Backend) (c : BackendCall) (x : Artist) :
  keeps (draw B c x).
Proof. unfold draw. repeat keeps_step. Qed.

#[local] Hint Resolve keeps_self_data keeps_bind_call keeps_draw : keeps.

(** ** Outcomes *)

Lemma post_bind {A C : Type} (m : Py A) (f : A -> Py C) (self : Plot)
    (Qv : Plot -> C -> Prop) (Qe : Plot -> Exn -> Prop) :
  post m self (fun self' a => post (f a) self' Qv Qe) Qe ->
  post (bind m f) self Qv Qe.
Proof.
  unfold post, bind. destruct (m self) as [self' [a|e]]; auto.
Qed.

Lemma post_keeps {A : Type} (base : Plot) (m : Py A) (self : Plot)
    (Qv : Plot -> A -> Prop) (Qe : Plot -> Exn -> Prop) :
  keeps m ->
  frame self = frame base ->
  (forall self' a, frame self' = frame base -> Qv self' a) ->
  (forall self' e, frame self' = frame base -> Qe self' e) ->
  post m self Qv Qe.
Proof.
  intros Hm Hb Hv He. unfold post. specialize (Hm self).
  destruct (m self) as [self' [a|e]]; simpl in Hm;
    [apply Hv | apply He]; congruence.
Qed.

Lemma post_get_self (self : Plot)
    (Qv : Plot -> Plot -> Prop) (Qe : Plot -> Exn -> Prop) :
  Qv self self -> post get_self self Qv Qe.
Proof. intros H; exact H. Qed.

Lemma post_set_labels (t x y : option string) (self : Plot)
    (Qv : Plot -> unit -> Prop) (Qe : Plot -> Exn -> Prop) :
  Qv (relabel (py_or t (ax_title (ax self))) (py_or x (ax_xlabel (ax self)))
        (py_or y (ax_ylabel (ax self))) self) tt ->
  post (set_labels t x y) self Qv Qe.
Proof. intros H. unfold post. rewrite set_labels_eq. exact H. Qed.

(** ** The texts after a draw call *)

Lemma py_or_default_nonempty (v : option string) (d old : string) :
  d <> "" -> py_or (Some (py_or v d)) old = py_or v d.
Proof.
  intros Hd. apply py_or_truthy.
  destruct v as [s|]; simpl; [|exact Hd].
  destruct (String.eqb_spec s ""); [exact Hd | assumption].
Qed.

Lemma default_title_nonempty (c : DrawCall) : default_title c <> "".
Proof. destruct c; discriminate. Qed.

Lemma py_or_option_map (field default : option string) (old : string) :
  py_or (option_map (py_or field) default) old = shown field default old.
Proof. destruct default; reflexivity. Qed.

Lemma post_finish (c : DrawCall) (base s self : Plot) :
  frame self = frame base ->
  frame s = frame base ->
  post (finish c s) self (labelled c base) (untouched base).
Proof.
  intros Hf Hs. apply post_set_labels.
  unfold frame, labels in Hf, Hs.
  injection Hf as Hd Htt Hxl Hyl Hat Hax Hay.
  injection Hs as _ Hst Hsx Hsy _ _ _.
  unfold labelled, texts_after, labels. simpl.
  rewrite Hd, Htt, Hxl, Hyl, Hax, Hay, Hst, Hsx, Hsy.
  rewrite !py_or_option_map.
  pose proof (py_or_default_nonempty (title base) (default_title c)
                (ax_title (ax self)) (default_title_nonempty c)) as Ht.
  simpl in Ht. rewrite Ht.
  split; reflexivity.
Qed.

Ltac keeps_frame base :=
  apply post_bind; apply (post_keeps base);
  [ repeat keeps_step
  | assumption || reflexivity
  | intros ? ? ?
  | intros ? ? ?; assumption ].

(** Every draw call either returns with the texts of [texts_after] and
    the label fields as they were, or raises with the label fields and
    the texts as they were. *)
Lemma plot_labels (B : Backend) (c : DrawCall) (self : Plot) :
  post (plot B c) self (labelled c self) (untouched self).
Proof.
  destruct c as [x_col y_cols kw | x_col y_cols kw | x_col y_col kw
                | col bins kw | kw]; simpl.
  - unfold LinePlot_plot, ax_plot.
    keeps_frame self. keeps_frame self.
    apply post_bind, post_get_self.
    apply (post_finish (Line x_col y_cols kw)); [assumption | assumption].
  - unfold BarPlot_plot, ax_bar, true_div, number_operand.
    do 7 keeps_frame self.
    apply post_bind, post_get_self.
    apply (post_finish (Bar x_col y_cols kw)); [assumption | assumption].
  - unfold ScatterPlot_plot, ax_scatter.
    do 3 keeps_frame self.
    apply post_bind, post_get_self.
    apply (post_finish (Scatter x_col y_col kw)); [assumption | assumption].
  - unfold Histogram_plot, ax_hist.
    do 2 keeps_frame self.
    apply post_bind, post_get_self.
    apply (post_finish (Hist col bins kw)); [assumption | assumption].
  - unfold Heatmap_plot, ax_matshow.
    apply post_bind, post_get_self.
    destruct (empty _); [reflexivity|].
    do 6 keeps_frame self.
    apply (post_finish (Heat kw)); [assumption | reflexivity].
Qed.

(** A title put on the surface by [set_labels] before the draw call is
    replaced by the kind's default: after [set_labels(title="Sales")] on a
    builder constructed without a title, the Line draw call returns and
    the title reads "Line Plot". *)
Lemma draw_replaces_title_from_set_labels :
  let before := fst (set_labels (Some "Sales") None None test_plot) in
  let after :=
    LinePlot_plot permissive "Category" (YList ["Values1"]) [] before in
  ax_title (ax before) = "Sales"
  /\ snd after = Val tt
  /\ ax_title (ax (fst after)) = "Line Plot"
  /\ ax_title (ax (fst after)) <> ax_title (ax before).
Proof.
  vm_compute. repeat split; discriminate.
Qed.

Lemma post_outcome {A : Type} (m : Py A) (self : Plot)
    (Qv : Plot -> A -> Prop) (Qe : Plot -> Exn -> Prop) (a : A) :
  post m self Qv Qe -> snd (m self) = Val a -> Qv (fst (m self)) a.
Proof.
  unfold post. destruct (m self) as [self' [a'|e]]; simpl; intros H E.
  - now injection E as <-.
  - discriminate.
Qed.

Lemma post_failure {A : Type} (m : Py A) (self : Plot)
    (Qv : Plot -> A -> Prop) (Qe : Plot -> Exn -> Prop) (e : Exn) :
  post m self Qv Qe -> snd (m self) = Exc e -> Qe (fst (m self)) e.
Proof.
  unfold post. destruct (m self) as [self' [a'|e']]; simpl; intros H E.
  - discriminate.
  - now injection E as <-.
Qed.

Lemma shown_nonempty_field (s : string) (d : string) (old : string) :
  s <> "" -> shown (Some s) (Some d) old = s.
Proof.
  intros Hs. unfold shown.
  rewrite (py_or_truthy s d Hs). now apply py_or_truthy.
Qed.

(** C2 (amended). For every chart kind, a draw call that returns leaves
    the three label fields of the builder as they were and shows, for
    each text, the field given at construction when it is a non-empty
    string and otherwise the kind's default; where the kind has no
    default (the axis labels of a heat map) or the default is empty (a
    column named by the empty string) the text on the surface stays. So a
    non-empty title or axis label given at construction is preserved by
    the draw call; a text that [set_labels] put on the surface is not a
    label field, and the draw call does not look at it. *)
Theorem draw_shows_label_fields_else_defaults
    (B : Backend) (c : DrawCall) (self : Plot) :
  snd (plot B c self) = Val tt ->
  let self' := fst (plot B c self) in
  (title self', x_label self', y_label self')
  = (title self, x_label self, y_label self)
  /\ ax_title (ax self') = py_or (title self) (default_title c)
  /\ ax_xlabel (ax self')
     = shown (x_label self) (default_x_label c) (ax_xlabel (ax self))
  /\ ax_ylabel (ax self')
     = shown (y_label self) (default_y_label c) (ax_ylabel (ax self))
  /\ (forall s, s <> "" -> title self = Some s -> ax_title (ax self') = s)
  /\ (forall s d, s <> "" -> x_label self = Some s ->
      default_x_label c = Some d -> ax_xlabel (ax self') = s)
  /\ (forall s d, s <> "" -> y_label self = Some s ->
      default_y_label c = Some d -> ax_ylabel (ax self') = s).
Proof.
  intros Hret self'.
  destruct (post_outcome _ _ _ _ tt (plot_labels B c self) Hret) as [Hf Hl].
  fold self' in Hf, Hl. unfold labels, texts_after in Hl.
  injection Hf as _ Ht Hx Hy. injection Hl as Hat Hax Hay.
  repeat split; try congruence.
  - intros s Hs E. rewrite Hat, E. now apply py_or_truthy.
  - intros s d Hs E Ed. rewrite Hax, E, Ed. now apply shown_nonempty_field.
  - intros s d Hs E Ed. rewrite Hay, E, Ed. now apply shown_nonempty_field.
Qed.

Lemma draw_shows_label_fields_else_defaults_witness :
  ax_title (ax (fst (plot permissive
                       (Line "Category" (YList ["Values1"; "Values2"]) [])
                       test_plot)))
  = "Line Plot".
Proof.
  exact (proj1 (proj2 (draw_shows_label_fields_else_defaults permissive
                         (Line "Category" (YList ["Values1"; "Values2"]) [])
                         test_plot eq_refl))).
Defined.

(** The label fields are the constructor's arguments, and [set_labels]
    does not write them: whatever [set_labels] is given between
    construction and a draw call that returns, the title shown is the
    constructor's when non-empty and the kind's default otherwise. *)
Lemma constructor_title_survives_set_labels
    (B : Backend) (data : PyData) (t x y : option string)
    (cs : option Kwargs) (figsize : Q * Q) (p : Plot)
    (t' x' y' : option string) (c : DrawCall) :
  __init__ B data t x y cs figsize = Val p ->
  let q := fst (set_labels t' x' y' p) in
  snd (plot B c q) = Val tt ->
  ax_title (ax (fst (plot B c q))) = py_or t (default_title c).
Proof.
  intros Hinit q Hret.
  destruct (post_outcome _ _ _ _ tt (plot_labels B c q) Hret) as [_ Hl].
  unfold labels, texts_after in Hl. injection Hl as Hat _ _.
  rewrite Hat. unfold q. rewrite set_labels_eq. simpl.
  unfold __init__ in Hinit.
  destruct (_validate_data data); [|discriminate].
  destruct (subplots_ok B figsize); [|discriminate].
  injection Hinit as <-. reflexivity.
Qed.

(** ** Draw calls on absent columns *)

Lemma getitem_absent (df : DataFrame) (col : string) :
  absent df col = true -> getitem df col = Exc (KeyError col).
Proof.
  unfold absent, dict_has, getitem.
  destruct (dict_get (df_cols df) col); [discriminate | reflexivity].
Qed.


Lemma first_clash_none (names : list string) (kw : Kwargs) :
  (forall k, In k names -> dict_get kw k = None) ->
  first_clash names kw = None.
Proof.
  induction kw as [|[k v] kw IH]; simpl; intros H; [reflexivity|].
  destruct (existsb (String.eqb k) names) eqn:E.
  - apply existsb_exists in E as (n & Hin & Heq).
    apply String.eqb_eq in Heq. subst n.
    specialize (H k Hin). rewrite String.eqb_refl in H. discriminate.
  - apply IH. intros k' Hin. specialize (H k' Hin).
    destruct (String.eqb k' k); [discriminate | exact H].
Qed.

Lemma post_self_data (col : string) (self : Plot)
    (Qv : Plot -> Series -> Prop) (Qe : Plot -> Exn -> Prop) :
  match getitem (data self) col with
  | Val s => Qv self s
  | Exc e => Qe self e
  end ->
  post (self_data col) self Qv Qe.
Proof.
  unfold post, self_data, bind, get_self, lift.
  destruct (getitem (data self) col); auto.
Qed.

(** A call whose keywords pass through binds its arguments. *)
Lemma post_bind_call (func : string) (ps ks : list string) (kw : Kwargs)
    (self : Plot) (Qv : Plot -> unit -> Prop) (Qe : Plot -> Exn -> Prop) :
  (first_clash ks kw = None -> first_clash ps kw = None -> Qv self tt) ->
  (forall e, ~ (first_clash ks kw = None /\ first_clash ps kw = None) ->
             Qe self e) ->
  post (bind_call func ps ks kw) self Qv Qe.
Proof.
  intros Hv He. unfold post, bind_call.
  destruct (first_clash ks kw) eqn:Ek.
  - apply He. intros [H _]; discriminate.
  - destruct (first_clash ps kw) eqn:Ep.
    + apply He. intros [_ H]; discriminate.
    + now apply Hv.
Qed.





Lemma post_number_operand (op : string) (v : PyVal) (self : Plot)
    (Qv : Plot -> Q -> Prop) (Qe : Plot -> Exn -> Prop) :
  (forall q, as_number v = Some q -> Qv self q) ->
  (as_number v = None -> Qe self (TypeError (UnsupportedOperand op))) ->
  post (number_operand op v) self Qv Qe.
Proof.
  intros Hv He. unfold post, number_operand.
  destruct (as_number v); simpl; auto.
Qed.

Lemma post_true_div (a : Q) (n : nat) (self : Plot)
    (Qv : Plot -> Q -> Prop) (Qe : Plot -> Exn -> Prop) :
  (n <> 0%nat -> Qv self (a / inject_Z (Z.of_nat n))%Q) ->
  (n = 0%nat -> Qe self ZeroDivisionError) ->
  post (true_div a n) self Qv Qe.
Proof.
  intros Hv He. unfold post, true_div.
  destruct (Nat.eqb_spec n 0); simpl; auto.
Qed.









(** ** Construction *)

Lemma same_length_check (d : Dict (list PyVal)) (n : nat) :
  forallb (fun kv => Nat.eqb (length (snd kv)) n) d = true
  <-> (forall kv, In kv d -> length (snd kv) = n).
Proof.
  rewrite forallb_forall. split; intros H kv Hin.
  - now apply Nat.eqb_eq, H.
  - now apply Nat.eqb_eq, H.
Qed.

Lemma pd_DataFrame_accepts (d : Dict (list PyVal)) :
  equal_lengths d ->
  exists n,
    pd_DataFrame d
    = Val {| df_cols := map (fun kv => (fst kv, Series_of (snd kv))) d;
             nrows := n |}.
Proof.
  intros H. destruct d as [|[k vs] d]; [now exists 0%nat|].
  exists (length vs). unfold pd_DataFrame.
  replace (forallb _ _) with true; [reflexivity|].
  symmetry. apply same_length_check. intros kv Hin.
  apply (H kv (k, vs)); [exact Hin | now left].
Qed.

Lemma pd_DataFrame_refuses (d : Dict (list PyVal)) :
  ~ equal_lengths d ->
  pd_DataFrame d = Exc (ValueError "All arrays must be of the same length").
Proof.
  intros H. destruct d as [|[k vs] d].
  - exfalso. apply H. intros kv kv' [].
  - unfold pd_DataFrame.
    destruct (forallb _ _) eqn:E; [|reflexivity].
    exfalso. apply H. intros kv kv' Hin Hin'.
    pose proof (proj1 (same_length_check _ _) E) as Hall.
    now rewrite (Hall kv Hin), (Hall kv' Hin').
Qed.

Lemma dict_get_map {A C : Type} (f : A -> C) (d : Dict A) (k : string) :
  dict_get (map (fun kv => (fst kv, f (snd kv))) d) k
  = option_map f (dict_get d k).
Proof.
  induction d as [|[k' v] d IH]; simpl; [reflexivity|].
  destruct (String.eqb k k'); [reflexivity | exact IH].
Qed.

(** A mapping from column names to sequences of two lengths is refused:
    construction fails, with the error of the tabular collaborator. *)
Lemma ragged_mapping_is_refused :
  table_or_mapping (DictObj ragged_data) = true
  /\ construct permissive (DictObj ragged_data)
     = Exc (ValueError "All arrays must be of the same length").
Proof. split; reflexivity. Qed.

(** C7 (amended). Construction succeeds exactly when the supplied data
    is a tabular instance or a mapping from column names to sequences of
    one common length (and the renderer allocates the canvas). Any input
    that is neither a table nor a mapping, such as a list or a string,
    fails with [InvalidDataError]; a mapping whose sequences differ in
    length fails in the tabular collaborator's normalisation. *)
Theorem construction_succeeds_iff_convertible
    (B : Backend) (data : PyData) (t x y : option string)
    (cs : option Kwargs) (figsize : Q * Q) :
  ((exists p, __init__ B data t x y cs figsize = Val p)
   <-> convertible data /\ subplots_ok B figsize = true)
  /\ (table_or_mapping data = false ->
      __init__ B data t x y cs figsize = Exc InvalidDataError)
  /\ (forall d, data = DictObj d -> ~ equal_lengths d ->
      __init__ B data t x y cs figsize
      = Exc (ValueError "All arrays must be of the same length")).
Proof.
  split; [|split].
  - unfold __init__. destruct data as [df | d | v]; simpl.
    + destruct (subplots_ok B figsize); split.
      * intros _. now split.
      * intros _. eauto.
      * intros [p Hp]. discriminate.
      * intros [_ Hp]. discriminate.
    + split.
      * intros [p Hp].
        destruct (pd_DataFrame d) eqn:E; [|discriminate].
        destruct (subplots_ok B figsize); [|discriminate].
        split; [|reflexivity].
        intros kv kv' Hin Hin'. unfold pd_DataFrame in E.
        destruct d as [|[k vs] d]; [destruct Hin|].
        destruct (forallb _ _) eqn:Ef; [|discriminate].
        pose proof (proj1 (same_length_check _ _) Ef) as Hall.
        now rewrite (Hall kv Hin), (Hall kv' Hin').
      * intros [Heq Hok]. destruct (pd_DataFrame_accepts d Heq) as [n ->].
        rewrite Hok. eauto.
    + split; [intros [p Hp]; discriminate | intros [[] _]].
  - destruct data; simpl; intros E; [discriminate | discriminate | reflexivity].
  - intros d -> Hne. unfold __init__. simpl.
    now rewrite (pd_DataFrame_refuses d Hne).
Qed.

Lemma construction_succeeds_iff_convertible_witness :
  __init__ permissive (OtherObj (PList [PInt 1; PInt 2; PInt 3]))
    None None None None default_figsize
  = Exc InvalidDataError.
Proof.
  exact (proj1 (proj2 (construction_succeeds_iff_convertible permissive
                         (OtherObj (PList [PInt 1; PInt 2; PInt 3]))
                         None None None None default_figsize))
               eq_refl).
Defined.

(** *** What the table keeps of a column *)

Lemma stored_length (vs : list PyVal) : length (stored vs) = length vs.
Proof.
  unfold stored. destruct (infer_dtype vs); try reflexivity.
  apply length_map.
Qed.

Lemma to_float64_kept (v : PyVal) :
  is_pyint v = false -> is_pynone v = false -> to_float64 v = v.
Proof. destruct v; simpl; intros; try reflexivity; discriminate. Qed.

Lemma round_binary64_small (z : Z) :
  (Z.abs z < 2 ^ 53)%Z -> round_binary64 z = z.
Proof.
  intros H. unfold round_binary64.
  destruct (Z.ltb_spec (Z.abs z) (2 ^ 53)); [reflexivity | lia].
Qed.

(** A stored cell is the given one, or its coercion in a float column. *)
Lemma stored_cell (vs : list PyVal) (i : nat) (v : PyVal) :
  nth_error vs i = Some v ->
  nth_error (stored vs) i
  = Some (match infer_dtype vs with float64 => to_float64 v | _ => v end).
Proof.
  intros H. unfold stored.
  destruct (infer_dtype vs); try exact H.
  now rewrite nth_error_map, H.
Qed.

Lemma map_to_float64_kept (vs : list PyVal) :
  (forall v, In v vs -> is_pyint v = false /\ is_pynone v = false) ->
  map to_float64 vs = vs.
Proof.
  induction vs as [|v vs IH]; intros H; [reflexivity|]. simpl.
  destruct (H v (or_introl eq_refl)) as [Hi Hn].
  rewrite (to_float64_kept v Hi Hn), IH; [reflexivity|].
  intros w Hw. apply H. now right.
Qed.

(** Integers alone never make a float column. *)
Lemma integers_not_float64 (v : PyVal) (vs : list PyVal) :
  forallb is_pyint (v :: vs) = true -> infer_dtype (v :: vs) <> float64.
Proof.
  intros H E. unfold infer_dtype in E. rewrite H in E.
  repeat match type of E with
         | context [if ?c then _ else _] => destruct c
         end; discriminate.
Qed.

Lemma one_kind_stored (vs : list PyVal) :
  one_kind vs = true -> stored vs = vs.
Proof.
  intros H. unfold stored.
  destruct (infer_dtype vs) eqn:E; try reflexivity.
  unfold one_kind in H.
  destruct (forallb is_pyint vs) eqn:Hint.
  - destruct vs as [|v vs]; [reflexivity|].
    now destruct (integers_not_float64 v vs Hint).
  - apply map_to_float64_kept. intros v Hv. simpl in H.
    apply orb_prop in H. destruct H as [H|H];
      [apply orb_prop in H; destruct H as [H|H]|];
      pose proof (proj1 (forallb_forall _ _) H v Hv) as Hk;
      destruct v; try discriminate; now split.
Qed.

(** C8 (amended). For every mapping whose sequences have one
    length, construction succeeds (the renderer allocating the canvas)
    and the table of the builder has the columns of the mapping, in
    order, each with as many cells as its sequence; a name that is not a
    key of the mapping is not a column. The cells round-trip in every
    column of one kind (integers only, finite floats only, booleans only
    or strings only): [dataset[col][i]] is the value at index [i] of the
    mapping's sequence. In any column, a cell that is neither an integer
    nor [None] is kept as given, and an integer below 2^53 in absolute
    value is kept as given or stored as the float of the same value. *)
Theorem mapping_round_trips_in_columns_of_one_kind
    (B : Backend) (d : Dict (list PyVal)) (t x y : option string)
    (cs : option Kwargs) (figsize : Q * Q) :
  equal_lengths d ->
  subplots_ok B figsize = true ->
  exists p,
    __init__ B (DictObj d) t x y cs figsize = Val p
    /\ columns (data p) = map fst d
    /\ (forall col vs, dict_get d col = Some vs ->
        exists s,
          getitem (data p) col = Val s
          /\ length (values s) = length vs
          /\ (one_kind vs = true ->
              forall i, nth_error (values s) i = nth_error vs i)
          /\ (forall i v, nth_error vs i = Some v ->
              is_pyint v = false -> is_pynone v = false ->
              nth_error (values s) i = Some v)
          /\ (forall i z, nth_error vs i = Some (PInt z) ->
              (Z.abs z < 2 ^ 53)%Z ->
              nth_error (values s) i = Some (PInt z)
              \/ nth_error (values s) i = Some (PFloat (inject_Z z))))
    /\ (forall col, dict_get d col = None ->
        getitem (data p) col = Exc (ColumnNotFoundError col)).
Proof.
  intros Heq Hok. unfold __init__. simpl.
  destruct (pd_DataFrame_accepts d Heq) as [n ->]. rewrite Hok.
  eexists. split; [reflexivity|]. simpl. split; [|split].
  - unfold columns. simpl. rewrite map_map. reflexivity.
  - intros col vs Hget. unfold getitem. simpl.
    rewrite (dict_get_map Series_of), Hget. simpl.
    eexists. split; [reflexivity|]. simpl.
    split; [apply stored_length|]. split; [|split].
    + intros Hk i. now rewrite (one_kind_stored vs Hk).
    + intros i v Hv Hi Hn. rewrite (stored_cell vs i v Hv).
      destruct (infer_dtype vs); try reflexivity.
      now rewrite (to_float64_kept v Hi Hn).
    + intros i z Hz Hsmall. rewrite (stored_cell vs i _ Hz).
      destruct (infer_dtype vs); try (now left).
      right. simpl. now rewrite (round_binary64_small z Hsmall).
  - intros col Hget. unfold getitem. simpl.
    now rewrite (dict_get_map Series_of), Hget.
Qed.

Lemma test_data_equal_lengths : equal_lengths test_data.
Proof.
  intros kv kv' Hin Hin'. simpl in Hin, Hin'.
  repeat (destruct Hin as [<-|Hin]; [|]);
    try (repeat (destruct Hin' as [<-|Hin']; [reflexivity|]); destruct Hin');
    destruct Hin.
Qed.

Lemma mapping_round_trips_in_columns_of_one_kind_witness :
  equal_lengths test_data
  /\ exists p,
    __init__ permissive (DictObj test_data) None None None None
      default_figsize = Val p
    /\ columns (data p) = map fst test_data
    /\ (forall col vs, dict_get test_data col = Some vs ->
        exists s,
          getitem (data p) col = Val s
          /\ length (values s) = length vs
          /\ (one_kind vs = true ->
              forall i, nth_error (values s) i = nth_error vs i)
          /\ (forall i v, nth_error vs i = Some v ->
              is_pyint v = false -> is_pynone v = false ->
              nth_error (values s) i = Some v)
          /\ (forall i z, nth_error vs i = Some (PInt z) ->
              (Z.abs z < 2 ^ 53)%Z ->
              nth_error (values s) i = Some (PInt z)
              \/ nth_error (values s) i = Some (PFloat (inject_Z z))))
    /\ (forall col, dict_get test_data col = None ->
        getitem (data p) col = Exc (ColumnNotFoundError col)).
Proof.
  split; [exact test_data_equal_lengths|].
  exact (mapping_round_trips_in_columns_of_one_kind permissive test_data
           None None None None default_figsize
           test_data_equal_lengths eq_refl).
Defined.

(** Cells that do not round-trip. The column [a] of [mixed_data] is
    [[1, None]]: construction succeeds, and the table holds [1.0] and
    [nan] where the mapping has [1] and [None]. In the column [b],
    [[2^53 + 1, 0.5]], the integer is stored as the float 2^53. *)
Lemma none_and_wide_integers_do_not_round_trip :
  equal_lengths mixed_data
  /\ subplots_ok permissive default_figsize = true
  /\ exists p s s',
      __init__ permissive (DictObj mixed_data) None None None None
        default_figsize = Val p
      /\ getitem (data p) "a" = Val s
      /\ dict_get mixed_data "a" = Some [PInt 1; PNone]
      /\ nth_error (values s) 1 = Some PNaN
      /\ nth_error (values s) 1 <> nth_error [PInt 1; PNone] 1
      /\ getitem (data p) "b" = Val s'
      /\ dict_get mixed_data "b" = Some [PInt (2 ^ 53 + 1); PFloat (1 # 2)]
      /\ nth_error (values s') 0 = Some (PFloat (inject_Z (2 ^ 53)))
      /\ nth_error (values s') 0
         <> nth_error [PInt (2 ^ 53 + 1); PFloat (1 # 2)] 0.
Proof.
  split.
  - intros kv kv' Hin Hin'. simpl in Hin, Hin'.
    destruct Hin as [<-|[<-|[]]]; destruct Hin' as [<-|[<-|[]]];
      reflexivity.
  - split; [reflexivity|].
    do 3 eexists. split; [reflexivity|].
    split; [reflexivity|]. split; [reflexivity|].
    split; [reflexivity|]. split; [discriminate|].
    split; [reflexivity|]. split; [reflexivity|].
    split; [reflexivity|]. discriminate.
Qed.

(** ** The heat map *)

Lemma select_dtypes_number_spec (df : DataFrame) (kv : string * Series) :
  In kv (df_cols (select_dtypes_number df))
  <-> In kv (df_cols df) /\ is_number (dtype (snd kv)) = true.
Proof. unfold select_dtypes_number. simpl. apply filter_In. Qed.

Lemma corr_square (B : Backend) (df : DataFrame) :
  length (corr B df) = length (columns df)
  /\ Forall (fun row => length row = length (columns df)) (corr B df).
Proof.
  unfold corr, columns. rewrite !length_map. split; [reflexivity|].
  apply Forall_forall. intros row Hin.
  apply in_map_iff in Hin as (ci & <- & _). now rewrite length_map.
Qed.

Lemma empty_spec (df : DataFrame) :
  empty df = true <-> length (columns df) = 0%nat \/ nrows df = 0%nat.
Proof.
  unfold empty, columns. rewrite length_map, orb_true_iff, !Nat.eqb_eq.
  reflexivity.
Qed.

(** What [Heatmap.plot] does when the numeric selection is not empty. *)
Lemma Heatmap_plot_nonempty (B : Backend) (kw : Kwargs) (self : Plot) :
  let numeric := select_dtypes_number (data self) in
  let grid := corr B numeric in
  let cmap := kwargs_get kw "cmap" (PStr "coolwarm") in
  empty numeric = false ->
  Heatmap_plot B kw self
  = if accepts B (ax self) (call_matshow grid cmap) then
      (relabel (py_or (title self) "Heatmap") (ax_xlabel (ax self))
         (ax_ylabel (ax self))
         (set_ax
            (with_yticklabels (map PStr (columns numeric))
               (with_xticklabels (map PStr (columns numeric)) (Some 90%Z)
                  (with_yticks (arange (length (columns numeric)))
                     (with_xticks (arange (length (columns numeric)))
                        (add_artist (AxesImage grid cmap) (ax self))))))
            (set_fig {| fig_size := fig_size (fig self);
                        fig_colorbars := S (fig_colorbars (fig self)) |}
               self)),
       Val tt)
    else (self, Exc BackendError).
Proof.
  intros numeric grid cmap Hne.
  unfold Heatmap_plot, bind, get_self. fold numeric. rewrite Hne.
  unfold ax_matshow, draw, bind, get_self. fold grid cmap.
  destruct (accepts B (ax self) (call_matshow grid cmap)); [|reflexivity].
  cbn [on_ax fig_colorbar fst snd]. rewrite set_labels_eq. cbn [py_or].
  pose proof (py_or_default_nonempty (title self) "Heatmap"
                (ax_title (ax self))) as Ht.
  cbn [py_or] in Ht. cbn [set_ax set_fig ax add_artist with_xticks with_yticks
    with_xticklabels with_yticklabels ax_title ax_xlabel ax_ylabel].
  rewrite Ht by discriminate. reflexivity.
Qed.

(** A table with a numeric-typed column and no row: the heat map fails
    with [NoNumericDataError] although a numeric column exists. *)
Lemma heatmap_refuses_numeric_table_without_rows :
  exists p,
    construct permissive (DataFrameObj numeric_table_without_rows) = Val p
    /\ columns (select_dtypes_number (data p)) = ["a"]
    /\ snd (Heatmap_plot permissive [] p) = Exc NoNumericDataError.
Proof. eexists. split; [reflexivity|]. split; reflexivity. Qed.

(** C6 (amended). The heat map's draw call fails with
    [NoNumericDataError] exactly when the selection of the numeric-typed
    columns is empty, that is when the table has no numeric-typed column
    or has no row. Otherwise, with k >= 1 numeric columns, it selects
    those columns only and, the renderer accepting the image, draws their
    k-by-k grid of pairwise correlation coefficients with the tick labels
    of both axes equal to the numeric column names, and returns. *)
Theorem heatmap_fails_iff_numeric_selection_empty
    (B : Backend) (kw : Kwargs) (self : Plot) :
  let numeric := select_dtypes_number (data self) in
  let k := length (columns numeric) in
  let grid := corr B numeric in
  let cmap := kwargs_get kw "cmap" (PStr "coolwarm") in
  let self' := fst (Heatmap_plot B kw self) in
  (snd (Heatmap_plot B kw self) = Exc NoNumericDataError
   <-> k = 0%nat \/ nrows (data self) = 0%nat)
  /\ (forall kv, In kv (df_cols numeric)
                 <-> In kv (df_cols (data self))
                     /\ is_number (dtype (snd kv)) = true)
  /\ (k <> 0%nat -> nrows (data self) <> 0%nat ->
      accepts B (ax self) (call_matshow grid cmap) = true ->
      snd (Heatmap_plot B kw self) = Val tt
      /\ ax_artists (ax self') = ax_artists (ax self) ++ [AxesImage grid cmap]
      /\ length grid = k
      /\ Forall (fun row => length row = k) grid
      /\ (forall i j ci cj,
            nth_error (df_cols numeric) i = Some ci ->
            nth_error (df_cols numeric) j = Some cj ->
            option_map (fun row => nth_error row j) (nth_error grid i)
            = Some (Some (pearson B (values (snd ci)) (values (snd cj)))))
      /\ ax_xticks (ax self') = Some (arange k)
      /\ ax_yticks (ax self') = Some (arange k)
      /\ ax_xticklabels (ax self') = Some (map PStr (columns numeric))
      /\ ax_yticklabels (ax self') = Some (map PStr (columns numeric))).
Proof.
  intros numeric k grid cmap self'.
  assert (Hnumeric : nrows numeric = nrows (data self)) by reflexivity.
  split; [|split].
  - change (snd (Heatmap_plot B kw self) = Exc NoNumericDataError
            <-> length (columns numeric) = 0%nat \/ nrows numeric = 0%nat).
    rewrite <- (empty_spec numeric). split.
    + intros Hfail. destruct (empty numeric) eqn:E; [reflexivity|].
      rewrite (Heatmap_plot_nonempty B kw self E) in Hfail.
      fold numeric grid cmap in Hfail.
      destruct (accepts B (ax self) (call_matshow grid cmap)); discriminate.
    + intros E. unfold Heatmap_plot, bind, get_self. fold numeric.
      rewrite E. reflexivity.
  - apply select_dtypes_number_spec.
  - intros Hk Hrows Hacc.
    assert (E : empty numeric = false).
    { destruct (empty numeric) eqn:E; [|reflexivity].
      apply empty_spec in E. fold k in E. rewrite Hnumeric in E. tauto. }
    unfold self'. rewrite (Heatmap_plot_nonempty B kw self E).
    fold numeric grid cmap. rewrite Hacc.
    destruct (corr_square B numeric) as [Hlen Hrow].
    repeat split; try assumption.
    intros i j ci cj Hi Hj. unfold grid, corr.
    rewrite nth_error_map, Hi. cbn [option_map].
    rewrite nth_error_map, Hj. reflexivity.
Qed.

Lemma heatmap_fails_iff_numeric_selection_empty_witness :
  snd (Heatmap_plot permissive [("cmap", PStr "viridis")] test_plot) = Val tt
  /\ ax_xticklabels
       (ax (fst (Heatmap_plot permissive [("cmap", PStr "viridis")]
                   test_plot)))
     = Some (map PStr ["Values1"; "Values2"; "Values3"; "Values4"; "Values5"]).
Proof.
  pose proof (proj2 (proj2 (heatmap_fails_iff_numeric_selection_empty
                              permissive [("cmap", PStr "viridis")] test_plot))
                    ltac:(discriminate) ltac:(discriminate) eq_refl) as H.
  split; [exact (proj1 H)|].
  exact (proj1 (proj2 (proj2 (proj2 (proj2 (proj2 (proj2 (proj2 H)))))))).
Defined.

(** ** The bar chart *)

(** The layout of a group, whatever the number of y-columns: with the
    renderer centring each bar on the position it is given, bar [0] of
    [n] starts [(n + 1) / 2] bar widths left of the tick and bar [n - 1]
    ends [(n - 1) / 2] bar widths right of it. The group reaches one bar
    width further to the left than to the right. *)
Lemma bar_group_reach (n : nat) (w tick : Q) :
  (0 < n)%nat ->
  let leftmost := bar_left [] (tick + bar_offset 0 n w) w in
  let rightmost := (bar_left [] (tick + bar_offset (n - 1) n w) w + w)%Q in
  (tick - leftmost == (inject_Z (Z.of_nat n) + 1) / 2 * w)%Q
  /\ (rightmost - tick == (inject_Z (Z.of_nat n) - 1) / 2 * w)%Q
  /\ ((tick - leftmost) - (rightmost - tick) == w)%Q.
Proof.
  intros Hn. unfold bar_left, bar_offset. simpl dict_get. cbv zeta.
  replace (Z.of_nat (n - 1)) with (Z.of_nat n - 1)%Z by lia.
  unfold Zminus. rewrite inject_Z_plus, inject_Z_opp.
  change (inject_Z (Z.of_nat 0)) with 0%Q. change (inject_Z 1) with 1%Q.
  repeat split; field.
Qed.

(** With [align="edge"] among the style keywords the same offsets are
    symmetric: the group reaches [n / 2] bar widths to either side. *)
Lemma bar_group_reach_edge_aligned (n : nat) (w tick : Q) :
  (0 < n)%nat ->
  let edge := [("align", PStr "edge")] in
  let leftmost := bar_left edge (tick + bar_offset 0 n w) w in
  let rightmost :=
    (bar_left edge (tick + bar_offset (n - 1) n w) w + w)%Q in
  (tick - leftmost == rightmost - tick)%Q.
Proof.
  intros Hn. unfold bar_left, bar_offset. simpl dict_get. cbv zeta.
  replace (Z.of_nat (n - 1)) with (Z.of_nat n - 1)%Z by lia.
  unfold Zminus. rewrite inject_Z_plus, inject_Z_opp.
  change (inject_Z (Z.of_nat 0)) with 0%Q. change (inject_Z 1) with 1%Q.
  field.
Qed.

(** A single y-column, given as a string: the bar of the category at
    tick k covers [k - 0.8, k], all of it left of the tick. *)
Lemma single_bar_left_of_tick :
  let r := plot permissive (Bar "Category" (YStr "Values1") []) test_plot in
  snd r = Val tt
  /\ map edges (bars (ax_artists (ax (fst r))))
     = [ (-4 # 5, 0); (1 # 5, 1); (6 # 5, 2); (11 # 5, 3) ]%Q.
Proof. split; vm_compute; reflexivity. Qed.

(** C1 (the code at the input of [test.py]). With the two y-columns
    "Values1" and "Values2" over the four categories the draw call
    returns, puts the ticks at 0, 1, 2, 3 and draws exactly 8 bars of
    width 0.4, no two overlapping; but the two bars of the category at
    tick k cover [k - 0.6, k - 0.2] and [k - 0.2, k + 0.2]: the group
    reaches 0.6 to the left of its tick and 0.2 to the right, so it is
    not centred on the tick. *)
Theorem bar_groups_off_centre_on_test_data :
  let r := plot permissive (test_bar_call []) test_plot in
  let arts := ax_artists (ax (fst r)) in
  snd r = Val tt
  /\ ax_xticks (ax (fst r)) = Some [0; 1; 2; 3]%Q
  /\ length (bars arts) = 8%nat
  /\ map edges (bars arts)
     = [ (-3 # 5, -1 # 5); (2 # 5, 4 # 5); (7 # 5, 9 # 5); (12 # 5, 14 # 5);
         (-1 # 5, 1 # 5); (4 # 5, 6 # 5); (9 # 5, 11 # 5); (14 # 5, 16 # 5) ]%Q
  /\ disjoint_bars (bars arts) = true
  /\ Forall (fun k => ~ centred_on (inject_Z (Z.of_nat k)) (group k arts))
            (seq 0 4).
Proof.
  cbv zeta. repeat split; try (vm_compute; reflexivity).
  repeat constructor; vm_compute; discriminate.
Qed.

Lemma first_clash_some (names : list string) (kw : Kwargs) (k : string) :
  dict_has kw k = true -> In k names -> first_clash names kw <> None.
Proof.
  unfold dict_has. induction kw as [|[k' v] kw IH]; simpl; [discriminate|].
  intros Hhas Hin. destruct (existsb (String.eqb k') names) eqn:E;
    [discriminate|].
  destruct (String.eqb_spec k k') as [->|Hne].
  - exfalso. apply Bool.not_true_iff_false in E. apply E.
    apply existsb_exists. exists k'. split; [exact Hin | apply String.eqb_refl].
  - now apply IH.
Qed.

(** Whatever the table, the columns and the other keywords, a Bar draw
    call given a [width] keyword raises: the width is passed to the
    renderer by position and once more among the keywords. *)
Lemma explicit_bar_width_never_returns
    (B : Backend) (x_col : string) (y_cols : YCols) (kw : Kwargs)
    (self : Plot) :
  dict_has kw "width" = true ->
  exists e, snd (BarPlot_plot B x_col y_cols kw self) = Exc e.
Proof.
  intros Hw.
  assert (H : post (BarPlot_plot B x_col y_cols kw) self never
                   (fun _ _ => True)).
  { unfold BarPlot_plot. apply post_bind, post_self_data.
    destruct (getitem (data self) x_col) as [xs|e]; [|exact I].
    apply post_bind, post_true_div; [|intros _; exact I].
    intros Hlen. apply post_bind.
    destruct (as_list y_cols) as [|y ys]; [now destruct Hlen|].
    unfold enumerate. simpl combine. simpl for_each.
    apply post_bind, post_bind, post_number_operand; [|intros _; exact I].
    intros w _. apply post_bind, post_self_data.
    destruct (getitem (data self) _) as [h|e]; [|exact I].
    unfold ax_bar. apply post_bind, post_bind_call; [|intros _ _; exact I].
    intros _ Hpos. exfalso. revert Hpos.
    apply (first_clash_some _ kw "width" Hw). simpl. auto. }
  unfold post in H.
  destruct (BarPlot_plot B x_col y_cols kw self) as [self' [a|e]];
    [destruct H | now exists e].
Qed.

(** *** The default width, for every number of y-columns *)

Lemma stable_ret {A : Type} (I : Plot -> Prop) (a : A) : stable I (ret a).
Proof. intros self H; exact H. Qed.

Lemma stable_raise {A : Type} (I : Plot -> Prop) (e : Exn) :
  stable I (@raise A e).
Proof. intros self H; exact H. Qed.

Lemma stable_bind {A C : Type} (I : Plot -> Prop) (m : Py A) (f : A -> Py C) :
  stable I m -> (forall a, stable I (f a)) -> stable I (bind m f).
Proof.
  intros Hm Hf self H. unfold bind. specialize (Hm self H).
  destruct (m self) as [self' [a|e]]; simpl in *; [now apply Hf | exact Hm].
Qed.

Lemma stable_for_each {A : Type} (I : Plot -> Prop) (body : A -> Py unit)
    (l : list A) :
  (forall a, stable I (body a)) -> stable I (for_each body l).
Proof.
  intros Hb. induction l as [|a l IH]; simpl.
  - apply stable_ret.
  - apply stable_bind; [apply Hb | intros _; exact IH].
Qed.

Lemma stable_self_data (I : Plot -> Prop) (col : string) :
  stable I (self_data col).
Proof. intros self H. unfold self_data, bind, get_self, lift. exact H. Qed.

Lemma stable_bind_call (I : Plot -> Prop) (func : string)
    (ps ks : list string) (kw : Kwargs) :
  stable I (bind_call func ps ks kw).
Proof.
  intros self H. unfold bind_call.
  destruct (first_clash ks kw); [exact H|].
  destruct (first_clash ps kw); exact H.
Qed.

Lemma stable_on_ax (I : Plot -> Prop) (f : Axes -> Axes) :
  (forall self, I self -> I (set_ax (f (ax self)) self)) ->
  stable I (on_ax f).
Proof. intros Hf self H. now apply Hf. Qed.

Lemma stable_draw (B : Backend) (I : Plot -> Prop) (c : BackendCall)
    (x : Artist) :
  (forall self, I self -> I (set_ax (add_artist x (ax self)) self)) ->
  stable I (draw B c x).
Proof.
  intros Hx self H. unfold draw, bind, get_self.
  destruct (accepts B (ax self) c); simpl; [now apply Hx | exact H].
Qed.

Lemma stable_set_labels (I : Plot -> Prop) (t x y : option string) :
  (forall self a b c, I self -> I (relabel a b c self)) ->
  stable I (set_labels t x y).
Proof. intros Hr self H. rewrite set_labels_eq. now apply Hr. Qed.

Lemma stable_bind_number {C : Type} (I : Plot -> Prop) (op : string)
    (v : PyVal) (f : Q -> Py C) :
  (forall q, as_number v = Some q -> stable I (f q)) ->
  stable I (bind (number_operand op v) f).
Proof.
  intros Hf self H. unfold bind, number_operand.
  destruct (as_number v) as [q|]; simpl; [now apply (Hf q) | exact H].
Qed.

Lemma stable_bind_true_div {C : Type} (I : Plot -> Prop) (a : Q) (n : nat)
    (f : Q -> Py C) :
  stable I (f (a / inject_Z (Z.of_nat n))%Q) ->
  stable I (bind (true_div a n) f).
Proof.
  intros Hf self H. unfold bind, true_div.
  destruct (Nat.eqb n 0); simpl; [exact H | now apply Hf].
Qed.

Lemma bars_app (l l' : list Artist) : bars (l ++ l') = bars l ++ bars l'.
Proof.
  induction l as [|a l IH]; simpl; [reflexivity|].
  destruct a; rewrite ?IH, ?app_assoc; reflexivity.
Qed.

Lemma bar_patches_width (kw : Kwargs) (x : list Q) (h : list PyVal) (w : Q) :
  Forall (fun r => rect_width r = w) (bar_patches kw x h w).
Proof.
  apply Forall_forall. intros r Hin. unfold bar_patches in Hin.
  apply in_map_iff in Hin as (xh & <- & _). reflexivity.
Qed.

(** Without a [width] keyword, every bar that a Bar draw call adds has
    the width 0.8 / N, N the number of y-columns; the bars that were
    there stay. *)
Lemma default_bar_width
    (B : Backend) (x_col : string) (y_cols : YCols) (kw : Kwargs)
    (self : Plot) :
  dict_get kw "width" = None ->
  added_bars
    (fun r => rect_width r
              = ((8 # 10) / inject_Z (Z.of_nat (length (as_list y_cols))))%Q)
    self (fst (BarPlot_plot B x_col y_cols kw self)).
Proof.
  intros Hw.
  set (P := fun r => rect_width r = _).
  assert (Hsame : forall f : Axes -> Axes,
            (forall a, ax_artists (f a) = ax_artists a) ->
            forall s, added_bars P self s ->
                      added_bars P self (set_ax (f (ax s)) s)).
  { intros f Hf s (added & E & HP). exists added. simpl. now rewrite Hf. }
  assert (Hst : stable (added_bars P self) (BarPlot_plot B x_col y_cols kw)).
  { unfold BarPlot_plot, kwargs_get. rewrite Hw.
    apply stable_bind; [apply stable_self_data | intros xs].
    apply stable_bind_true_div.
    apply stable_bind.
    - apply stable_for_each. intros [i col]. cbv zeta.
      apply stable_bind_number. intros q Hq. injection Hq as <-.
      apply stable_bind; [apply stable_self_data | intros h].
      unfold ax_bar.
      apply stable_bind; [apply stable_bind_call | intros _].
      apply stable_draw. intros s (added & E & HP).
      unfold added_bars. simpl. rewrite bars_app, E. simpl.
      rewrite app_nil_r, <- app_assoc.
      eexists. split; [reflexivity|].
      apply Forall_app. split; [exact HP | apply bar_patches_width].
    - intros _.
      apply stable_bind; [apply stable_on_ax, Hsame; reflexivity | intros _].
      apply stable_bind; [apply stable_self_data | intros labels].
      apply stable_bind; [apply stable_on_ax, Hsame; reflexivity | intros _].
      apply stable_bind; [apply stable_on_ax, Hsame; reflexivity | intros _].
      apply stable_bind; [intros s H; exact H | intros s0].
      apply stable_set_labels. intros s a b c (added & E & HP).
      exists added. split; [exact E | exact HP]. }
  apply Hst. exists []. split; [now rewrite app_nil_r | constructor].
Qed.

(** C3 (the code at the input of [test.py]). Without a [width] keyword
    the two y-columns get bars of width 0.8 / 2 = 0.4. With
    [width=0.5] among the style keywords the draw call does not
    succeed: it raises a [TypeError], the width reaching the renderer
    twice, and no bar is drawn. *)
Theorem explicit_bar_width_raises_on_test_data :
  let default := plot permissive (test_bar_call []) test_plot in
  let explicit :=
    plot permissive (test_bar_call [("width", PFloat (1 # 2))]) test_plot in
  snd default = Val tt
  /\ Forall (fun b => rect_width b == (8 # 10) / 2)%Q
            (bars (ax_artists (ax (fst default))))
  /\ snd explicit = Exc (TypeError (MultipleValues "bar" "width"))
  /\ bars (ax_artists (ax (fst explicit))) = [].
Proof.
  cbv zeta. repeat split; try (vm_compute; reflexivity).
  vm_compute. repeat constructor.
Qed.

(** * Further properties of the code *)

(** ** [set_labels] called again *)

Lemma py_or_later (a b : option string) (old : string) :
  py_or (later a b) old = py_or a (py_or b old).
Proof.
  unfold later. destruct a as [s|]; simpl; [|reflexivity].
  destruct (String.eqb s "") eqn:E; simpl; [reflexivity|].
  now rewrite E.
Qed.

(** X1. Two calls of [set_labels] in a row amount to one: for each of the
    title, the x-label and the y-label, the argument of the second call
    counts when it is a non-empty string and the argument of the first
    call otherwise. In particular the same call made twice changes
    nothing the second time. *)
Theorem set_labels_twice
    (self : Plot) (t1 x1 y1 t2 x2 y2 : option string) :
  set_labels t2 x2 y2 (fst (set_labels t1 x1 y1 self))
  = set_labels (later t2 t1) (later x2 x1) (later y2 y1) self
  /\ set_labels t1 x1 y1 (fst (set_labels t1 x1 y1 self))
     = set_labels t1 x1 y1 self.
Proof.
  assert (H : forall a1 b1 c1 a2 b2 c2,
             set_labels a2 b2 c2 (fst (set_labels a1 b1 c1 self))
             = set_labels (later a2 a1) (later b2 b1) (later c2 c1) self).
  { intros. rewrite !set_labels_eq. cbn [fst]. rewrite !py_or_later.
    reflexivity. }
  split; [apply H|].
  rewrite H. f_equal; unfold later; destruct (truthy _); reflexivity.
Qed.

(** ** Draw calls without y-columns, and with a [label] keyword *)

Lemma getitem_cells (df : DataFrame) (col : string) :
  absent df col = false ->
  exists s, getitem df col = Val s /\ values s = cells df col.
Proof.
  unfold absent, dict_has, getitem, cells.
  destruct (dict_get (df_cols df) col) as [s|]; [eauto | discriminate].
Qed.

(** X2. A Bar draw call with an empty list of y-columns draws nothing and
    raises: the [KeyError] of the x-column when it is absent, and
    otherwise [ZeroDivisionError], the default width 0.8 / 0 being
    computed before the keywords are looked at, so also when a [width]
    is given. The builder is left as it was. *)
Theorem bar_without_y_columns_raises
    (B : Backend) (x_col : string) (kw : Kwargs) (self : Plot) :
  BarPlot_plot B x_col (YList []) kw self
  = (self, Exc (if absent (data self) x_col then KeyError x_col
                else ZeroDivisionError)).
Proof.
  unfold BarPlot_plot, self_data, bind, get_self, lift, getitem, absent,
    dict_has.
  destruct (dict_get (df_cols (data self)) x_col); reflexivity.
Qed.

(** X3. A Line or Bar draw call given a [label] among the style keywords
    never returns once it has a y-column to draw (a Bar call never
    returns at all): the draw call passes [label=col] itself, and the
    builder is left as it was. With the x-column and the first y-column
    in the table (and, for Bar, no [width] keyword), the error is the
    [TypeError] of the repeated keyword. *)
Theorem label_keyword_is_refused
    (B : Backend) (x_col : string) (y_cols : YCols) (kw : Kwargs)
    (self : Plot) :
  dict_has kw "label" = true ->
  (as_list y_cols <> [] ->
   exists e, LinePlot_plot B x_col y_cols kw self = (self, Exc e)
             /\ (absent (data self) x_col = false ->
                 absent (data self) (hd "" (as_list y_cols)) = false ->
                 e = TypeError (RepeatedKeyword "plot" "label")))
  /\ (exists e, BarPlot_plot B x_col y_cols kw self = (self, Exc e)
                /\ (absent (data self) x_col = false ->
                    as_list y_cols <> [] ->
                    absent (data self) (hd "" (as_list y_cols)) = false ->
                    dict_get kw "width" = None ->
                    e = TypeError (RepeatedKeyword "bar" "label"))).
Proof.
  intros Hl.
  assert (Hclash : exists k, first_clash ["label"] kw = Some k /\ k = "label").
  { pose proof (first_clash_some ["label"] kw "label" Hl (or_introl eq_refl)).
    clear Hl. induction kw as [|[k v] kw IH]; simpl in *; [congruence|].
    destruct (String.eqb_spec k "label") as [->|Hne]; simpl in *.
    - eauto.
    - now apply IH. }
  destruct Hclash as (k & Hk & ->).
  split.
  - intros Hne. unfold LinePlot_plot.
    destruct (as_list y_cols) as [|y ys]; [congruence|]. simpl for_each.
    unfold self_data, bind, get_self, lift, getitem, absent, dict_has.
    destruct (dict_get (df_cols (data self)) x_col) as [xs|];
      [|eexists; split; [reflexivity | discriminate]].
    simpl hd.
    destruct (dict_get (df_cols (data self)) y) as [yv|];
      [|eexists; split; [reflexivity | discriminate]].
    unfold ax_plot, bind, bind_call. rewrite Hk.
    eexists; split; reflexivity.
  - unfold BarPlot_plot, self_data, bind, get_self, lift, getitem, absent,
      dict_has.
    destruct (dict_get (df_cols (data self)) x_col) as [xs|];
      [|eexists; split; [reflexivity | discriminate]].
    unfold true_div.
    destruct (as_list y_cols) as [|y ys];
      [eexists; split; [reflexivity | congruence]|].
    simpl Nat.eqb. cbv iota. unfold enumerate. simpl combine. simpl for_each.
    unfold number_operand, bind, kwargs_get.
    destruct (dict_get kw "width") as [v|].
    + destruct (as_number v) as [w|];
        [|eexists; split; [reflexivity | discriminate]].
      simpl. unfold self_data, bind, get_self, lift, getitem.
      destruct (dict_get (df_cols (data self)) y) as [yv|];
        [|eexists; split; [reflexivity | discriminate]].
      unfold ax_bar, bind, bind_call. rewrite Hk.
      eexists; split; [reflexivity | discriminate].
    + simpl. unfold self_data, bind, get_self, lift, getitem.
      destruct (dict_get (df_cols (data self)) y) as [yv|];
        [|eexists; split; [reflexivity | discriminate]].
      unfold ax_bar, bind, bind_call. rewrite Hk.
      eexists; split; reflexivity.
Qed.

Lemma label_keyword_is_refused_witness :
  exists e,
    LinePlot_plot permissive "Category" (YStr "Values1")
      [("label", PStr "mine")] test_plot
    = (test_plot, Exc e).
Proof.
  destruct (proj1 (label_keyword_is_refused permissive "Category"
                     (YStr "Values1") [("label", PStr "mine")] test_plot
                     eq_refl)
                  ltac:(discriminate)) as (e & He & _).
  exists e. exact He.
Defined.

(** ** Scatter and Histogram: when they return, and what they draw *)

Lemma first_clash_none_iff (names : list string) (kw : Kwargs) :
  first_clash names kw = None <-> free_of names kw.
Proof.
  split; [|apply first_clash_none].
  intros Hnone k Hin. destruct (dict_get kw k) as [v|] eqn:E; [|reflexivity].
  exfalso. apply (first_clash_some names kw k); [|exact Hin | exact Hnone].
  unfold dict_has. now rewrite E.
Qed.

Lemma first_clash_nil (kw : Kwargs) : first_clash [] kw = None.
Proof. induction kw as [|[k v] kw IH]; simpl; [reflexivity | exact IH]. Qed.

Lemma absent_cells (df : DataFrame) (col : string) :
  match dict_get (df_cols df) col with
  | Some s => absent df col = false /\ values s = cells df col
  | None => absent df col = true
  end.
Proof.
  unfold absent, dict_has, cells.
  destruct (dict_get (df_cols df) col); [split|]; reflexivity.
Qed.

(** X4. A Scatter draw call returns exactly when both columns are in the
    table, the style keywords name neither [x] nor [y] (the two
    arguments the draw call passes by position) and the renderer accepts
    the call. It then has added one point cloud of the two columns after
    the artists that were there, and has touched neither the legend nor
    the ticks. A Scatter draw call that raises leaves the builder as it
    was. *)
Theorem scatter_returns_iff
    (B : Backend) (x_col y_col : string) (kw : Kwargs) (self : Plot) :
  let r := ScatterPlot_plot B x_col y_col kw self in
  let shape := call_scatter (cells (data self) x_col)
                 (cells (data self) y_col) kw in
  (snd r = Val tt
   <-> absent (data self) x_col = false /\ absent (data self) y_col = false
       /\ free_of ["x"; "y"] kw /\ accepts B (ax self) shape = true)
  /\ (snd r = Val tt ->
      ax_artists (ax (fst r))
      = ax_artists (ax self)
        ++ [PathCollection (cells (data self) x_col)
              (cells (data self) y_col) kw]
      /\ ax_legend (ax (fst r)) = ax_legend (ax self)
      /\ ax_xticks (ax (fst r)) = ax_xticks (ax self)
      /\ ax_xticklabels (ax (fst r)) = ax_xticklabels (ax self))
  /\ (forall e, snd r = Exc e -> fst r = self).
Proof.
  cbv zeta. unfold ScatterPlot_plot, self_data, bind, get_self, lift, getitem.
  pose proof (absent_cells (data self) x_col) as Hx.
  pose proof (absent_cells (data self) y_col) as Hy.
  destruct (dict_get (df_cols (data self)) x_col) as [xs|].
  2:{ simpl. rewrite Hx. repeat split; try discriminate.
      intros (H & _); discriminate. }
  destruct Hx as [-> <-].
  destruct (dict_get (df_cols (data self)) y_col) as [ys|].
  2:{ simpl. rewrite Hy. repeat split; try discriminate.
      intros (_ & H & _); discriminate. }
  destruct Hy as [-> <-].
  unfold ax_scatter, bind, bind_call, draw, bind, get_self, ret, raise, on_ax.
  rewrite first_clash_nil.
  pose proof (first_clash_none_iff ["x"; "y"] kw) as Hfree.
  destruct (first_clash ["x"; "y"] kw) as [k|].
  { simpl. repeat split; try discriminate.
    intros (_ & _ & H & _). apply Hfree in H. discriminate. }
  destruct (accepts B (ax self) _) eqn:Hacc.
  - rewrite set_labels_eq. cbn [fst snd].
    repeat split; try reflexivity; try discriminate.
    now apply Hfree.
  - simpl. repeat split; try discriminate.
    intros (_ & _ & _ & H). discriminate.
Qed.

(** X5. A Histogram draw call returns exactly when the column is in the
    table, the style keywords name neither [x] nor [bins] and the
    renderer accepts the call. It then has added one histogram of the
    column, with the bins it was given, after the artists that were
    there, and has touched neither the legend nor the ticks. A Histogram
    draw call that raises leaves the builder as it was. *)
Theorem histogram_returns_iff
    (B : Backend) (col : string) (bins : PyVal) (kw : Kwargs) (self : Plot) :
  let r := Histogram_plot B col bins kw self in
  let shape := call_hist (cells (data self) col) bins kw in
  (snd r = Val tt
   <-> absent (data self) col = false
       /\ free_of ["bins"] kw /\ free_of ["x"] kw
       /\ accepts B (ax self) shape = true)
  /\ (snd r = Val tt ->
      ax_artists (ax (fst r))
      = ax_artists (ax self)
        ++ [HistPatches (cells (data self) col) bins kw]
      /\ ax_legend (ax (fst r)) = ax_legend (ax self)
      /\ ax_xticks (ax (fst r)) = ax_xticks (ax self)
      /\ ax_xticklabels (ax (fst r)) = ax_xticklabels (ax self))
  /\ (forall e, snd r = Exc e -> fst r = self).
Proof.
  cbv zeta. unfold Histogram_plot, self_data, bind, get_self, lift, getitem.
  pose proof (absent_cells (data self) col) as Hx.
  destruct (dict_get (df_cols (data self)) col) as [xs|].
  2:{ simpl. rewrite Hx. repeat split; try discriminate.
      intros (H & _); discriminate. }
  destruct Hx as [-> <-].
  unfold ax_hist, bind, bind_call, draw, bind, get_self, ret, raise, on_ax.
  pose proof (first_clash_none_iff ["bins"] kw) as Hbins.
  pose proof (first_clash_none_iff ["x"] kw) as Hfree.
  destruct (first_clash ["bins"] kw) as [k|].
  { simpl. repeat split; try discriminate.
    intros (_ & H & _). apply Hbins in H. discriminate. }
  destruct (first_clash ["x"] kw) as [k|].
  { simpl. repeat split; try discriminate.
    intros (_ & _ & H & _). apply Hfree in H. discriminate. }
  destruct (accepts B (ax self) _) eqn:Hacc.
  - rewrite set_labels_eq. cbn [fst snd].
    repeat split; try reflexivity; try discriminate.
    + now apply Hbins.
    + now apply Hfree.
  - simpl. repeat split; try discriminate.
    intros (_ & _ & _ & H). discriminate.
Qed.

(** ** Line: one series per y-column *)

Lemma add_artists_spec (l : list Artist) :
  forall self,
    ax_artists (ax (add_artists l self)) = ax_artists (ax self) ++ l
    /\ frame (add_artists l self) = frame self
    /\ fig (add_artists l self) = fig self
    /\ color_scheme (add_artists l self) = color_scheme self
    /\ ax_legend (ax (add_artists l self)) = ax_legend (ax self)
    /\ ax_xticks (ax (add_artists l self)) = ax_xticks (ax self)
    /\ ax_xticklabels (ax (add_artists l self)) = ax_xticklabels (ax self).
Proof.
  induction l as [|a l IH]; intros self.
  - simpl. rewrite app_nil_r. repeat split.
  - change (add_artists (a :: l) self)
      with (add_artists l (set_ax (add_artist a (ax self)) self)).
    destruct (IH (set_ax (add_artist a (ax self)) self))
      as (-> & -> & -> & -> & -> & -> & ->).
    simpl. rewrite <- app_assoc. repeat split.
Qed.

Lemma for_each_app {A : Type} (body : A -> Py unit) (l1 l2 : list A)
    (self : Plot) :
  for_each body (l1 ++ l2) self
  = (for_each body l1 ;; for_each body l2) self.
Proof.
  revert self. induction l1 as [|a l1 IH]; intros self; simpl.
  - reflexivity.
  - unfold bind in *. destruct (body a self) as [s [[]|e]];
      [apply IH | reflexivity].
Qed.

(** One turn of the loop of [LinePlot.plot] on columns that are there. *)
Lemma line_turn (B : Backend) (x_col : string) (kw : Kwargs) (y : string)
    (self : Plot) :
  accepting B -> free_of ["label"] kw ->
  absent (data self) x_col = false -> absent (data self) y = false ->
  (xs <- self_data x_col ;;
   ys <- self_data y ;;
   ax_plot B (values xs) (values ys) y kw) self
  = (set_ax (add_artist (line_of (data self) x_col kw y) (ax self)) self,
     Val tt).
Proof.
  intros Hacc Hfree Hx Hy.
  destruct (getitem_cells _ _ Hx) as (xs & Ex & Hxs).
  destruct (getitem_cells _ _ Hy) as (ys & Ey & Hys).
  unfold self_data, bind, get_self, lift. rewrite Ex, Ey.
  unfold ax_plot, bind, bind_call, draw, bind, get_self, ret, on_ax.
  rewrite (proj2 (first_clash_none_iff _ _) Hfree), first_clash_nil.
  rewrite Hacc. unfold line_of. now rewrite Hxs, Hys.
Qed.

Lemma line_loop_run (B : Backend) (x_col : string) (kw : Kwargs) :
  accepting B -> free_of ["label"] kw ->
  forall (ys : list string) (self : Plot),
    (ys <> [] -> absent (data self) x_col = false) ->
    (forall y, In y ys -> absent (data self) y = false) ->
    for_each (fun col =>
                xs <- self_data x_col ;;
                ys <- self_data col ;;
                ax_plot B (values xs) (values ys) col kw) ys self
    = (add_artists (map (line_of (data self) x_col kw) ys) self, Val tt).
Proof.
  intros Hacc Hfree. induction ys as [|y ys IH]; intros self Hx Hys.
  - reflexivity.
  - simpl for_each. unfold bind at 1.
    rewrite (line_turn B x_col kw y self Hacc Hfree);
      [| apply Hx; discriminate | apply Hys; now left].
    rewrite IH.
    + reflexivity.
    + intros _. apply Hx. discriminate.
    + intros y' Hin. apply Hys. now right.
Qed.

(** The run of [LinePlot.plot] on columns that are there. *)
Lemma LinePlot_plot_run
    (B : Backend) (x_col : string) (y_cols : YCols) (kw : Kwargs)
    (self : Plot) :
  accepting B -> free_of ["label"] kw ->
  (as_list y_cols <> [] -> absent (data self) x_col = false) ->
  (forall y, In y (as_list y_cols) -> absent (data self) y = false) ->
  exists t x y,
    LinePlot_plot B x_col y_cols kw self
    = (relabel t x y
         (set_ax
            (with_legend
               (ax (add_artists
                      (map (line_of (data self) x_col kw) (as_list y_cols))
                      self)))
            (add_artists
               (map (line_of (data self) x_col kw) (as_list y_cols)) self)),
       Val tt).
Proof.
  intros Hacc Hfree Hx Hys. unfold LinePlot_plot.
  unfold bind at 1. rewrite (line_loop_run B x_col kw Hacc Hfree _ _ Hx Hys).
  unfold bind, on_ax, get_self. rewrite set_labels_eq. eauto.
Qed.

(** X6. With every column it mentions in the table, no [label] among the
    style keywords and a renderer that accepts the calls, a Line draw
    call returns, having added one line per y-column, in the order
    given, after the artists that were there: each line plots the
    y-column against the x-column, carries the y-column's name as its
    label and the style keywords. The legend is then drawn from all the
    artists on the axis, and the ticks are not touched. *)
Theorem line_draws_one_series_per_column
    (B : Backend) (x_col : string) (y_cols : YCols) (kw : Kwargs)
    (self : Plot) :
  accepting B -> free_of ["label"] kw ->
  (as_list y_cols <> [] -> absent (data self) x_col = false) ->
  (forall y, In y (as_list y_cols) -> absent (data self) y = false) ->
  let r := LinePlot_plot B x_col y_cols kw self in
  let drawn :=
    ax_artists (ax self)
    ++ map (fun y => Line2D (cells (data self) x_col) (cells (data self) y)
                       y kw)
           (as_list y_cols) in
  snd r = Val tt
  /\ ax_artists (ax (fst r)) = drawn
  /\ ax_legend (ax (fst r)) = Some (legend_entries drawn)
  /\ ax_xticks (ax (fst r)) = ax_xticks (ax self)
  /\ ax_xticklabels (ax (fst r)) = ax_xticklabels (ax self).
Proof.
  intros Hacc Hfree Hx Hys. cbv zeta.
  destruct (LinePlot_plot_run B x_col y_cols kw self Hacc Hfree Hx Hys)
    as (t & x & y & ->).
  destruct (add_artists_spec (map (line_of (data self) x_col kw)
                                (as_list y_cols)) self)
    as (Ha & _ & _ & _ & _ & Ht & Htl).
  unfold relabel, set_ax, with_legend, with_title, with_xlabel, with_ylabel.
  cbn [fst snd ax ax_artists ax_legend ax_xticks ax_xticklabels].
  rewrite Ha, Ht, Htl. repeat split.
Qed.

Lemma line_draws_one_series_per_column_witness :
  ax_legend
    (ax (fst (LinePlot_plot permissive "Category"
                (YList ["Values1"; "Values2"]) [("linewidth", PInt 2)]
                test_plot)))
  = Some ["Values1"; "Values2"].
Proof.
  refine (proj1 (proj2 (proj2
            (line_draws_one_series_per_column permissive "Category"
               (YList ["Values1"; "Values2"]) [("linewidth", PInt 2)]
               test_plot _ _ _ _)))).
  - intros a call. reflexivity.
  - intros k [<-|[]]. reflexivity.
  - intros _. reflexivity.
  - intros y [<-|[<-|[]]]; reflexivity.
Defined.

(** X7. A Line draw call does not undo what it drew when it fails.
    When the renderer accepts every call, the style keywords hold no
    [label], the x-column is in the table and so are the y-columns
    before the first absent one, the call raises the [KeyError] of that
    absent column and leaves the lines of the columns before it on the
    axis, after the artists that were there; the legend, the title and
    the axis labels stay as they were, and the columns after the absent
    one are not drawn. *)
Theorem line_failure_keeps_earlier_series
    (B : Backend) (x_col : string) (kw : Kwargs) (self : Plot)
    (before : list string) (y : string) (rest : list string) :
  accepting B -> free_of ["label"] kw ->
  absent (data self) x_col = false ->
  (forall y', In y' before -> absent (data self) y' = false) ->
  absent (data self) y = true ->
  let r := LinePlot_plot B x_col (YList (before ++ y :: rest)) kw self in
  snd r = Exc (KeyError y)
  /\ ax_artists (ax (fst r))
     = ax_artists (ax self)
       ++ map (fun y' => Line2D (cells (data self) x_col)
                           (cells (data self) y') y' kw)
              before
  /\ ax_legend (ax (fst r)) = ax_legend (ax self)
  /\ labels (fst r) = labels self.
Proof.
  intros Hacc Hfree Hx Hbefore Hy. cbv zeta.
  destruct (add_artists_spec (map (line_of (data self) x_col kw) before) self)
    as (Ha & Hf & _ & _ & Hl & _ & _).
  assert (E : LinePlot_plot B x_col (YList (before ++ y :: rest)) kw self
              = (add_artists (map (line_of (data self) x_col kw) before) self,
                 Exc (KeyError y))).
  { unfold LinePlot_plot. cbn [as_list]. unfold bind at 1.
    rewrite for_each_app. unfold bind at 1.
    rewrite (line_loop_run B x_col kw Hacc Hfree before self
               (fun _ => Hx) Hbefore).
    simpl for_each.
    set (s1 := add_artists _ self) in *.
    assert (Hd : data s1 = data self) by (unfold frame in Hf; congruence).
    destruct (getitem_cells (data s1) x_col) as (xs & Ex & _);
      [now rewrite Hd|].
    unfold bind, self_data, bind, get_self, lift. rewrite Ex.
    rewrite (getitem_absent (data s1) y) by now rewrite Hd.
    reflexivity. }
  rewrite E. cbn [fst snd]. rewrite Ha, Hl. unfold frame in Hf.
  repeat split. congruence.
Qed.

Lemma line_failure_keeps_earlier_series_witness :
  length
    (ax_artists
       (ax (fst (LinePlot_plot permissive "Category"
                   (YList (["Values1"] ++ "Missing" :: ["Values2"])) []
                   test_plot))))
  = 1%nat.
Proof.
  refine (f_equal (@length Artist)
            (proj1 (proj2
               (line_failure_keeps_earlier_series permissive "Category" []
                  test_plot ["Values1"] "Missing" ["Values2"] _ _ _ _ _)))).
  - intros a call. reflexivity.
  - intros k [<-|[]]. reflexivity.
  - reflexivity.
  - intros y [<-|[]]. reflexivity.
  - reflexivity.
Defined.

(** ** Bar: one container per y-column *)











(** ** What every draw call keeps *)

Lemma stable_get_self (I : Plot -> Prop) : stable I get_self.
Proof. intros self H; exact H. Qed.

Lemma stable_fig_colorbar (I : Plot -> Prop) :
  (forall self f, I self -> I (set_fig f self)) ->
  stable I fig_colorbar.
Proof. intros Hf self H. now apply Hf. Qed.

Ltac stable_step side :=
  cbv beta zeta;
  lazymatch goal with
  | |- stable _ (for_each _ _) => apply stable_for_each; intros ?
  | |- stable _ (bind (number_operand _ _) _) =>
      apply stable_bind_number; intros ? _
  | |- stable _ (bind (true_div _ _) _) => apply stable_bind_true_div
  | |- stable _ (bind _ _) => apply stable_bind; [| intros ?]
  | |- stable _ (on_ax _) => apply stable_on_ax; side
  | |- stable _ (draw _ _ _) => apply stable_draw; side
  | |- stable _ (set_labels _ _ _) => apply stable_set_labels; side
  | |- stable _ (self_data _) => apply stable_self_data
  | |- stable _ (bind_call _ _ _ _) => apply stable_bind_call
  | |- stable _ get_self => apply stable_get_self
  | |- stable _ fig_colorbar => apply stable_fig_colorbar; side
  | |- stable _ (raise _) => apply stable_raise
  | |- stable _ (ret _) => apply stable_ret
  | |- stable _ (if ?b then _ else _) => destruct b
  end.

Ltac unfold_plot :=
  unfold plot, LinePlot_plot, BarPlot_plot, ScatterPlot_plot, Histogram_plot,
    Heatmap_plot, ax_plot, ax_bar, ax_scatter, ax_hist, ax_matshow.

Ltac appended_side :=
  intros;
  match goal with
  | H : exists _, _ |- _ =>
      let added := fresh "added" in
      let E := fresh "E" in
      destruct H as (added & E);
      eexists; cbn; rewrite ?E, <- ?app_assoc; reflexivity
  end.

(** X10. A draw call only adds to the axis: whatever the chart kind, the
    arguments and the renderer, and whether the call returns or raises,
    the artists that were on the axis before the call are still there
    afterwards, in the same order, followed by those the call added. So
    drawing again on the same builder piles the new artists on the old
    ones, and [set_labels] leaves the artists as they are. *)
Theorem draw_only_appends_artists
    (B : Backend) (c : DrawCall) (self : Plot) (t x y : option string) :
  (exists added,
     ax_artists (ax (fst (plot B c self))) = ax_artists (ax self) ++ added)
  /\ ax_artists (ax (fst (set_labels t x y self))) = ax_artists (ax self).
Proof.
  split; [|now rewrite set_labels_eq].
  assert (Hst : stable
                  (fun s => exists added,
                     ax_artists (ax s) = ax_artists (ax self) ++ added)
                  (plot B c)).
  { destruct c; unfold_plot; repeat stable_step appended_side. }
  apply Hst. exists []. now rewrite app_nil_r.
Qed.

Ltac kept_side := intros; cbn; assumption.

(** X11. No draw call touches the dataset, the title and label fields
    given at construction, the colour mapping or the size of the canvas,
    whether it returns or raises. The colorbars of the figure grow by
    one exactly when a heat map returns, so a second heat map drawn on
    the same builder leaves two; every other outcome leaves their number
    as it was. *)
Theorem draw_keeps_dataset_fields_and_canvas
    (B : Backend) (c : DrawCall) (self : Plot) :
  let r := plot B c self in
  data (fst r) = data self
  /\ (title (fst r), x_label (fst r), y_label (fst r))
     = (title self, x_label self, y_label self)
  /\ color_scheme (fst r) = color_scheme self
  /\ fig_size (fig (fst r)) = fig_size (fig self)
  /\ fig_colorbars (fig (fst r))
     = (fig_colorbars (fig self)
        + match c, snd r with
          | Heat _, Val _ => 1
          | _, _ => 0
          end)%nat.
Proof.
  cbv zeta.
  set (Inv := fun s : Plot =>
              data s = data self
              /\ (title s, x_label s, y_label s)
                 = (title self, x_label self, y_label self)
              /\ color_scheme s = color_scheme self
              /\ fig s = fig self).
  assert (HI : Inv self) by (unfold Inv; repeat split).
  destruct c as [x_col y_cols kw | x_col y_cols kw | x_col y_col kw
                | col bins kw | kw].
  1-4: match goal with
       | |- context [fst (plot ?b ?c ?s)] =>
           assert (Hst : stable Inv (plot b c))
             by (unfold Inv; unfold_plot; repeat stable_step kept_side);
           destruct (Hst s HI) as (Hd & Hf & Hc & Hfig);
           rewrite Hd, Hf, Hc, Hfig, Nat.add_0_r; repeat split
       end.
  simpl plot. destruct (empty (select_dtypes_number (data self))) eqn:E.
  - unfold Heatmap_plot, bind, get_self. rewrite E. simpl.
    rewrite Nat.add_0_r. repeat split.
  - rewrite (Heatmap_plot_nonempty B kw self E).
    destruct (accepts B (ax self) _); simpl.
    + rewrite Nat.add_1_r. repeat split.
    + rewrite Nat.add_0_r. repeat split.
Qed.

(** ** Drawing twice *)

Lemma shown_again (field default : option string) (old : string) :
  shown field default (shown field default old) = shown field default old.
Proof.
  destruct default as [d|]; [|reflexivity].
  unfold shown. set (v := py_or field d). cbn [py_or].
  destruct (String.eqb v "") eqn:E; rewrite ?E; reflexivity.
Qed.

(** X12. The texts settle with the first draw call: when the same draw
    call (or any draw call of the same kind on the same columns) is made
    a second time and returns, the title, the x-label and the y-label
    are what the first call left. *)
Theorem draw_again_keeps_texts
    (B : Backend) (c c' : DrawCall) (self : Plot) :
  default_title c' = default_title c ->
  default_x_label c' = default_x_label c ->
  default_y_label c' = default_y_label c ->
  snd (plot B c self) = Val tt ->
  snd (plot B c' (fst (plot B c self))) = Val tt ->
  labels (fst (plot B c' (fst (plot B c self))))
  = labels (fst (plot B c self)).
Proof.
  intros Ht Hx Hy H1 H2.
  destruct (post_outcome _ _ _ _ tt (plot_labels B c self) H1) as [Hf Hl].
  destruct (post_outcome _ _ _ _ tt (plot_labels B c' _) H2) as [_ Hl'].
  rewrite Hl'. unfold texts_after. rewrite Ht, Hx, Hy.
  injection Hf as _ Hft Hfx Hfy. rewrite Hft, Hfx, Hfy.
  rewrite Hl. unfold texts_after, labels in Hl |- *.
  injection Hl as _ Hax Hay. rewrite Hax, Hay, !shown_again. reflexivity.
Qed.

Lemma draw_again_keeps_texts_witness :
  labels (fst (plot permissive (test_bar_call [])
                 (fst (plot permissive (test_bar_call []) test_plot))))
  = ("Bar Plot", "Category", "Values").
Proof.
  exact (draw_again_keeps_texts permissive (test_bar_call [])
           (test_bar_call []) test_plot eq_refl eq_refl eq_refl eq_refl
           eq_refl).
Defined.

(** ** What the heat map looks at *)

(** X13. A heat map is determined by the numeric-typed columns of the
    table (with the number of rows), the [cmap] keyword and the title
    field: on two builders that agree on these and on the surface so
    far, the draw call has the same outcome and leaves the same axis and
    figure, whatever the other columns, the other style keywords (which
    are not passed on to the renderer) and the axis-label fields. *)
Theorem heatmap_looks_at_numeric_columns_and_cmap
    (B : Backend) (kw kw' : Kwargs) (self self' : Plot) :
  select_dtypes_number (data self) = select_dtypes_number (data self') ->
  dict_get kw "cmap" = dict_get kw' "cmap" ->
  title self = title self' ->
  ax self = ax self' ->
  fig self = fig self' ->
  snd (Heatmap_plot B kw self) = snd (Heatmap_plot B kw' self')
  /\ ax (fst (Heatmap_plot B kw self)) = ax (fst (Heatmap_plot B kw' self'))
  /\ fig (fst (Heatmap_plot B kw self))
     = fig (fst (Heatmap_plot B kw' self')).
Proof.
  intros Hsel Hcmap Ht Hax Hfig.
  destruct (empty (select_dtypes_number (data self))) eqn:E.
  - assert (E' := E). rewrite Hsel in E'.
    unfold Heatmap_plot, bind, get_self. rewrite E, E'. simpl. tauto.
  - assert (E' := E). rewrite Hsel in E'.
    rewrite (Heatmap_plot_nonempty B kw self E),
            (Heatmap_plot_nonempty B kw' self' E').
    unfold kwargs_get. rewrite Hsel, Hcmap, Ht, Hax, Hfig.
    destruct (accepts B (ax self') _); simpl; rewrite ?Hax, ?Hfig; tauto.
Qed.

Lemma heatmap_looks_at_numeric_columns_and_cmap_witness :
  ax (fst (Heatmap_plot permissive
             [("cmap", PStr "viridis"); ("linewidth", PInt 2)] test_plot))
  = ax (fst (Heatmap_plot permissive [("cmap", PStr "viridis")]
               test_numeric_plot)).
Proof.
  exact (proj1 (proj2
           (heatmap_looks_at_numeric_columns_and_cmap permissive
              [("cmap", PStr "viridis"); ("linewidth", PInt 2)]
              [("cmap", PStr "viridis")] test_plot test_numeric_plot
              eq_refl eq_refl eq_refl eq_refl eq_refl))).
Defined.
